(** * The items service of [app.py]

    A shallow embedding of the FastAPI application: the [items] table of the
    in-memory SQLite database, the six route functions, the response shaping
    of their decorators and the validation of request bodies against
    [ItemCreate].

    Modelling decisions, all taken from the source:
    - the database holds one table, [items]; its state is the list of its
      rows in rowid order, which is the order [db.query(ItemModel).all()]
      returns them in;
    - [id] is [Column(Integer, primary_key=True)], an alias of SQLite's rowid,
      declared without AUTOINCREMENT: an insert that gives no id receives the
      largest rowid in the table plus one, or 1 in an empty table.  The table
      is taken to be far from the 64-bit end of the rowid range, so that the
      next rowid is this sum;
    - [item_id: int] of a path is any Python integer, but the driver binds
      only signed 64-bit integers to a statement: a query by an id outside
      that range raises [OverflowError], which no route function catches;
    - [price] is a Python [float], an IEEE double, kept as a primitive float.
      The REAL column does not give back every double it is handed: it keeps
      NULL in place of NaN and 0.0 in place of -0.0;
    - every route function receives its own session and commits before it
      returns, so a handler is a function from the table to an outcome and a
      table; [raise HTTPException] and an uncaught exception are the two
      error outcomes;
    - a value a route function returns is then validated against the
      [response_model]; a row whose price is NULL fails it, and the request
      is answered 500 like any uncaught exception. *)

From Stdlib Require Import ZArith List String Ascii Bool Lia Sorted.
From Stdlib Require Import Floats Uint63 DecimalString DecimalPos DecimalZ.
Import ListNotations.

Set Warnings "-inexact-float,-register-all,-notation-for-abbreviation".

Local Open Scope string_scope.
Local Open Scope list_scope.
Local Open Scope Z_scope.

(** ** Status codes ([fastapi.status]) *)

Module status.
Definition HTTP_200_OK : Z := 200.
Definition HTTP_201_CREATED : Z := 201.
Definition HTTP_204_NO_CONTENT : Z := 204.
Definition HTTP_404_NOT_FOUND : Z := 404.
Definition HTTP_422_UNPROCESSABLE_ENTITY : Z := 422.
Definition HTTP_500_INTERNAL_SERVER_ERROR : Z := 500.
End status.

(** ** Data model *)

(** [class ItemModel(Base)]: a row of the table [items].  [price] is
    [Column(Float)], which may be NULL.  SQLite keeps no NaN in a REAL
    column, so NaN, the one double a row cannot hold, is how a row says NULL
    here, the [None] of the mapped object. *)
Module ItemModel.
Record t := mk
  { id : Z;
    name : string;
    description : option string;
    price : float }.
End ItemModel.
Notation ItemModel := ItemModel.t (only parsing).

(** Whether the price of a row is a number, not NULL. *)
Definition priced (row : ItemModel) : bool :=
  negb (PrimFloat.is_nan (ItemModel.price row)).

(** What the REAL column keeps of a double it is handed: NULL for NaN, and
    0.0 for -0.0 (a whole number is kept as an integer, which has one zero);
    every other double as it is. *)
Definition REAL (x : float) : float :=
  if PrimFloat.is_nan x then x
  else if PrimFloat.eqb x 0 then 0%float
  else x.

(** The integers the driver binds to a statement: the signed 64-bit ones. *)
Definition int64 (n : Z) : bool :=
  (- 2 ^ 63 <=? n) && (n <? 2 ^ 63).

(** The lengths the columns are declared with: [String(100)] for [name],
    [String(500)] for [description].  SQLite keeps a declared length as a
    type name only, and no route function looks at it. *)
Definition name_max_length : nat := 100.
Definition description_max_length : nat := 500.

(** [class ItemBase(BaseModel)]: [name: str], [description: Optional[str] =
    None], [price: float]. *)
Module ItemBase.
Record t := mk
  { name : string;
    description : option string;
    price : float }.
End ItemBase.
Notation ItemBase := ItemBase.t (only parsing).

(** [class ItemCreate(ItemBase): pass] *)
Notation ItemCreate := ItemBase.t (only parsing).

(** [class ItemResponse(ItemBase)]: adds [id: int]. *)
Module ItemResponse.
Record t := mk
  { id : Z;
    name : string;
    description : option string;
    price : float }.

(** [orm_mode]: the response model reads its fields off the row. *)
Definition from_orm (row : ItemModel) : t :=
  {| id := ItemModel.id row;
     name := ItemModel.name row;
     description := ItemModel.description row;
     price := ItemModel.price row |}.
End ItemResponse.
Notation ItemResponse := ItemResponse.t (only parsing).

(** ** The table and the sessions over it *)

(** The rows of [items], in rowid order. *)
Definition Database := list ItemModel.

(** [Base.metadata.create_all(bind=engine)]: the table starts empty. *)
Definition create_all : Database := [].

(** The largest rowid in use, if the table has a row. *)
Fixpoint max_rowid (db : Database) : option Z :=
  match db with
  | [] => None
  | row :: rest =>
      Some (match max_rowid rest with
            | None => ItemModel.id row
            | Some m => Z.max (ItemModel.id row) m
            end)
  end.

(** The rowid SQLite gives to an insert that names none. *)
Definition next_rowid (db : Database) : Z :=
  match max_rowid db with
  | None => 1
  | Some m => m + 1
  end.

(** The rowids of the table, in the order of its rows. *)
Definition rowids (db : Database) : list Z :=
  map ItemModel.id db.

(** Whether every rowid is a signed 64-bit integer, as SQLite's are. *)
Definition rowids_fit (db : Database) : bool :=
  forallb int64 (rowids db).

(** Whether some row carries this id. *)
Definition present (item_id : Z) (db : Database) : bool :=
  existsb (fun row => ItemModel.id row =? item_id) db.

(** [HTTPException(status_code=.., detail=..)] *)
Module HTTPException.
Record t := mk
  { status_code : Z;
    detail : string }.
End HTTPException.
Notation HTTPException := HTTPException.t (only parsing).

(** The exceptions, other than [HTTPException], that a query raises. *)
Inductive Error : Type :=
| OverflowError.

(** What a route function ends with: a value, an [HTTPException] it raised,
    or an exception it did not catch. *)
Inductive outcome (A : Type) : Type :=
| Returns (a : A)
| Raises (e : HTTPException)
| Fails (e : Error).
Arguments Returns {A} a.
Arguments Raises {A} e.
Arguments Fails {A} e.

(** A computation over a session: it reads and writes the table and either
    returns or raises. *)
Definition handler (A : Type) : Type := Database -> outcome A * Database.

Definition ret {A : Type} (a : A) : handler A :=
  fun db => (Returns a, db).

Definition raise {A : Type} (e : HTTPException) : handler A :=
  fun db => (Raises e, db).

Definition bind {A B : Type} (c : handler A) (k : A -> handler B) : handler B :=
  fun db =>
    match c db with
    | (Returns a, db') => k a db'
    | (Raises e, db') => (Raises e, db')
    | (Fails e, db') => (Fails e, db')
    end.

Declare Scope handler_scope.
Delimit Scope handler_scope with handler.
Notation "x <- c ;; k" := (bind c (fun x => k))
  (at level 100, c at next level, right associativity) : handler_scope.
Local Open Scope handler_scope.

Module Session.

(** [db.query(ItemModel).all()] *)
Definition query_all : handler (list ItemModel) :=
  fun db => (Returns db, db).

(** [db.query(ItemModel).filter(ItemModel.id == item_id).first()]: the id
    is bound to the statement, which fails for an id that is no signed
    64-bit integer; otherwise the first row of that id, if any. *)
Definition query_first (item_id : Z) : handler (option ItemModel) :=
  fun db =>
    if int64 item_id
    then (Returns (find (fun row => ItemModel.id row =? item_id) db), db)
    else (Fails OverflowError, db).

(** [db.add(ItemModel(name=.., description=.., price=..))], [db.commit()] and
    the read-back of the new row by [db.refresh]: the insert names no id, so
    the row gets [next_rowid], which is above every rowid in use and puts it
    last; its price is what the REAL column keeps of the one given. *)
Definition add (item : ItemBase) : handler ItemModel :=
  fun db =>
    let row :=
      {| ItemModel.id := next_rowid db;
         ItemModel.name := ItemBase.name item;
         ItemModel.description := ItemBase.description item;
         ItemModel.price := REAL (ItemBase.price item) |} in
    (Returns row, db ++ [row]).

(** [db.commit()] after attributes of [db_item] were set, and
    [db.refresh(db_item)]: UPDATE .. WHERE id = the id of [db_item], then the
    read-back of the row, its price as the REAL column keeps it. *)
Definition update (db_item : ItemModel) : handler ItemModel :=
  fun db =>
    let row :=
      {| ItemModel.id := ItemModel.id db_item;
         ItemModel.name := ItemModel.name db_item;
         ItemModel.description := ItemModel.description db_item;
         ItemModel.price := REAL (ItemModel.price db_item) |} in
    (Returns row,
     map (fun r => if ItemModel.id r =? ItemModel.id db_item then row else r) db).

(** [db.delete(db_item)], [db.commit()]: DELETE .. WHERE id = the id of
    [db_item]. *)
Definition delete (db_item : ItemModel) : handler unit :=
  fun db =>
    (Returns tt,
     filter (fun row => negb (ItemModel.id row =? ItemModel.id db_item)) db).

End Session.

(** ** Seed data *)

Definition sample_items : list ItemBase :=
  [ {| ItemBase.name := "Laptop";
       ItemBase.description := Some "A powerful laptop for development";
       ItemBase.price := 1299.99%float |};
    {| ItemBase.name := "Smartphone";
       ItemBase.description := Some "Latest smartphone model";
       ItemBase.price := 899.99%float |};
    {| ItemBase.name := "Headphones";
       ItemBase.description := Some "Noise-cancelling headphones";
       ItemBase.price := 249.99%float |} ].

(** [seed_data()]: the sample items are added one after the other to one
    session, which is then committed. *)
Definition seed_data (db : Database) : Database :=
  fold_left (fun db item => snd (Session.add item db)) sample_items db.

(** The table once the module is loaded: created, then seeded. *)
Definition startup : Database := seed_data create_all.

(** ** Route functions *)

(** [str(item_id)] inside the f-string. *)
Definition str (n : Z) : string := NilZero.string_of_int (Z.to_int n).

Definition not_found (item_id : Z) : HTTPException :=
  {| HTTPException.status_code := status.HTTP_404_NOT_FOUND;
     HTTPException.detail := ("Item with ID " ++ str item_id ++ " not found")%string |}.

Definition welcome : string :=
  "Welcome to FastAPI with SQLite in-memory database!".

Definition root : handler string :=
  ret welcome.

Definition get_all_items : handler (list ItemModel) :=
  items <- Session.query_all ;;
  ret items.

Definition get_item (item_id : Z) : handler ItemModel :=
  item <- Session.query_first item_id ;;
  match item with
  | None => raise (not_found item_id)
  | Some item => ret item
  end.

Definition create_item (item : ItemCreate) : handler ItemModel :=
  new_item <- Session.add item ;;
  ret new_item.

(** The loop over [item.model_dump().items()]: each of [name], [description]
    and [price] of the row object is set from the request; [id] is not a key
    of the dump. *)
Definition setattrs (db_item : ItemModel) (item : ItemCreate) : ItemModel :=
  {| ItemModel.id := ItemModel.id db_item;
     ItemModel.name := ItemBase.name item;
     ItemModel.description := ItemBase.description item;
     ItemModel.price := ItemBase.price item |}.

Definition update_item (item_id : Z) (item : ItemCreate) : handler ItemModel :=
  db_item <- Session.query_first item_id ;;
  match db_item with
  | None => raise (not_found item_id)
  | Some db_item =>
      db_item <- Session.update (setattrs db_item item) ;;
      ret db_item
  end.

Definition delete_item (item_id : Z) : handler unit :=
  db_item <- Session.query_first item_id ;;
  match db_item with
  | None => raise (not_found item_id)
  | Some db_item =>
      _ <- Session.delete db_item ;;
      ret tt
  end.

(** ** Responses *)

(** One entry of the [detail] list of a 422 response: the place of the
    offending value and the kind of the error. *)
Inductive error_type : Type :=
| missing
| string_type
| float_type
| float_parsing
| model_attributes_type.

Record validation_error := mkError
  { loc : list string;
    type : error_type }.

(** The JSON a response carries. *)
Inductive content : Type :=
| item_content (item : ItemResponse)
| items_content (items : list ItemResponse)
| message_content (message : string)
| detail_content (detail : string)
| errors_content (errors : list validation_error)
| text_content (text : string)
| no_content.

Module Response.
Record t := mk
  { status_code : Z;
    body : content }.
End Response.
Notation Response := Response.t (only parsing).

(** The answer to a request whose handling ended in an exception that is
    no [HTTPException]. *)
Definition internal_server_error : Response :=
  Response.mk status.HTTP_500_INTERNAL_SERVER_ERROR
    (text_content "Internal Server Error").

(** What the route decorator adds to a route function: a normal return is
    validated against the [response_model] and sent under the [status_code],
    or answered 500 if it does not validate; a raised [HTTPException] is
    rendered as its status code with [{"detail": ..}]; any other exception
    is answered 500. *)
Definition endpoint {A : Type} (status_code : Z)
    (response_model : A -> option content)
    (f : handler A) (db : Database) : Response * Database :=
  match f db with
  | (Returns a, db') =>
      match response_model a with
      | Some c => (Response.mk status_code c, db')
      | None => (internal_server_error, db')
      end
  | (Raises e, db') =>
      (Response.mk (HTTPException.status_code e)
                   (detail_content (HTTPException.detail e)), db')
  | (Fails _, db') => (internal_server_error, db')
  end.

(** [response_model=ItemResponse]: [price: float] is required, so a row
    whose price is NULL does not validate. *)
Definition item_response (row : ItemModel) : option content :=
  if priced row then Some (item_content (ItemResponse.from_orm row)) else None.

(** [response_model=List[ItemResponse]]: every row has to validate. *)
Definition items_response (rows : list ItemModel) : option content :=
  if forallb priced rows
  then Some (items_content (map ItemResponse.from_orm rows))
  else None.

(** [@app.get("/")] *)
Definition GET_root : Database -> Response * Database :=
  endpoint status.HTTP_200_OK (fun message => Some (message_content message)) root.

(** [@app.get("/items", response_model=List[ItemResponse], status_code=200)] *)
Definition GET_items : Database -> Response * Database :=
  endpoint status.HTTP_200_OK items_response get_all_items.

(** [@app.get("/items/{item_id}", response_model=ItemResponse, status_code=200)] *)
Definition GET_item (item_id : Z) : Database -> Response * Database :=
  endpoint status.HTTP_200_OK item_response (get_item item_id).

(** [@app.post("/items", response_model=ItemResponse, status_code=201)], the
    body already validated. *)
Definition POST_items (item : ItemCreate) : Database -> Response * Database :=
  endpoint status.HTTP_201_CREATED item_response (create_item item).

(** [@app.put("/items/{item_id}", response_model=ItemResponse, status_code=200)],
    the body already validated. *)
Definition PUT_item (item_id : Z) (item : ItemCreate) : Database -> Response * Database :=
  endpoint status.HTTP_200_OK item_response (update_item item_id item).

(** [@app.delete("/items/{item_id}", status_code=204)]: [return None], sent
    without a body. *)
Definition DELETE_item (item_id : Z) : Database -> Response * Database :=
  endpoint status.HTTP_204_NO_CONTENT (fun _ : unit => Some no_content)
    (delete_item item_id).

(** ** Request bodies *)

(** A parsed JSON body.  A number written with a fraction or an exponent
    (or as [NaN] or [Infinity], which the parser takes) is loaded as a
    [float] and carries that double; a number written as an integer is
    loaded as an [int] of any size. *)
Inductive json : Type :=
| JNull
| JBool (b : bool)
| JNumber (x : float)
| JInteger (n : Z)
| JString (s : string)
| JArray (elements : list json)
| JObject (members : list (string * json)).

(** The value of a key of an object; of a repeated key the last one counts,
    as in the [dict] the body is loaded into. *)
Fixpoint get (key : string) (members : list (string * json)) : option json :=
  match members with
  | [] => None
  | (k, v) :: rest =>
      match get key rest with
      | Some v' => Some v'
      | None => if String.eqb k key then Some v else None
      end
  end.

Definition is_number (v : json) : bool :=
  match v with
  | JNumber _ | JInteger _ => true
  | _ => false
  end.

(** [float(n)] for an [int]: the nearest double, ties to even, and no double
    at all when that would be an infinity ([OverflowError]). *)
Definition float_of_int (n : Z) : option float :=
  let x := SF2Prim (binary_normalize prec emax n 0 false) in
  if PrimFloat.is_infinity x then None else Some x.

Definition is_string (v : json) : bool :=
  match v with
  | JString _ => true
  | _ => false
  end.

Inductive request : Type :=
| Get_root
| Get_items
| Get_item (item_id : Z)
| Post_items (body : json)
| Put_item (item_id : Z) (body : json)
| Delete_item (item_id : Z).

Section Validation.

(** The validator of a [float] field is pydantic's, in its default (lax)
    mode: besides numbers it reads some strings and booleans as floats.
    These two conversions are library code, taken here as given. *)
Variable str_as_float : string -> option float.
Variable bool_as_float : bool -> option float.

(** [name: str] *)
Definition validate_name (members : list (string * json)) : error_type + string :=
  match get "name" members with
  | None => inl missing
  | Some (JString s) => inr s
  | Some _ => inl string_type
  end.

(** [description: Optional[str] = None] *)
Definition validate_description (members : list (string * json))
    : error_type + option string :=
  match get "description" members with
  | None => inr None
  | Some JNull => inr None
  | Some (JString s) => inr (Some s)
  | Some _ => inl string_type
  end.

(** [price: float] *)
Definition validate_price (members : list (string * json)) : error_type + float :=
  match get "price" members with
  | None => inl missing
  | Some (JNumber x) => inr x
  | Some (JInteger n) =>
      match float_of_int n with
      | Some x => inr x
      | None => inl float_type
      end
  | Some (JString s) =>
      match str_as_float s with
      | Some x => inr x
      | None => inl float_parsing
      end
  | Some (JBool b) =>
      match bool_as_float b with
      | Some x => inr x
      | None => inl float_type
      end
  | Some _ => inl float_type
  end.

Definition error_at {A : Type} (field : string) (r : error_type + A)
    : list validation_error :=
  match r with
  | inl e => [ {| loc := ["body"; field]; type := e |} ]
  | inr _ => []
  end.

(** The body read as an [ItemCreate]: the item, or the errors of all
    fields. *)
Definition validate (body : json) : list validation_error + ItemCreate :=
  match body with
  | JObject members =>
      match validate_name members,
            validate_description members,
            validate_price members with
      | inr n, inr d, inr p =>
          inr {| ItemBase.name := n;
                 ItemBase.description := d;
                 ItemBase.price := p |}
      | n, d, p =>
          inl (error_at "name" n ++ error_at "description" d ++ error_at "price" p)
      end
  | _ => inl [ {| loc := ["body"]; type := model_attributes_type |} ]
  end.

(** What the float validator makes of a value that is not a number, if
    anything. *)
Definition lax_float (v : json) : option float :=
  match v with
  | JString s => str_as_float s
  | JBool b => bool_as_float b
  | _ => None
  end.

Definition unprocessable (errors : list validation_error) : Response :=
  Response.mk status.HTTP_422_UNPROCESSABLE_ENTITY (errors_content errors).

(** The application: routing, and the validation of the body before the
    route function is entered. *)
Definition app (r : request) (db : Database) : Response * Database :=
  match r with
  | Get_root => GET_root db
  | Get_items => GET_items db
  | Get_item item_id => GET_item item_id db
  | Post_items body =>
      match validate body with
      | inl errors => (unprocessable errors, db)
      | inr item => POST_items item db
      end
  | Put_item item_id body =>
      match validate body with
      | inl errors => (unprocessable errors, db)
      | inr item => PUT_item item_id item db
      end
  | Delete_item item_id => DELETE_item item_id db
  end.

End Validation.

(** The value a body gives to a key, if the body is an object and has it. *)
Definition member (key : string) (body : json) : option json :=
  match body with
  | JObject members => get key members
  | _ => None
  end.

(** ** A fragment of the string conversion

    Plain decimal numerals, [digits] or [digits.digits], of at most fifteen
    digits.  On these the quotient of the digits read as an integer by the
    power of ten is the correctly rounded double (both are exact doubles),
    which is what the library conversion yields; on every other string the
    fragment gives no answer. *)

Definition digit (c : ascii) : option Z :=
  let n := Z.of_nat (nat_of_ascii c) - 48 in
  if (0 <=? n) && (n <=? 9) then Some n else None.

Fixpoint numeral (s : string) (acc : Z) : option Z :=
  match s with
  | EmptyString => Some acc
  | String c rest =>
      match digit c with
      | Some n => numeral rest (10 * acc + n)
      | None => None
      end
  end.

(** The part before the first point, and the part after it if there is a
    point. *)
Fixpoint split_point (s : string) : string * option string :=
  match s with
  | EmptyString => (EmptyString, None)
  | String c rest =>
      if Ascii.eqb c "."
      then (EmptyString, Some rest)
      else let (whole, fraction) := split_point rest in (String c whole, fraction)
  end.

Definition float_of_Z (n : Z) : float :=
  PrimFloat.of_uint63 (Uint63.of_Z n).

Definition plain_decimal (s : string) : option float :=
  let len (t : string) := Z.of_nat (String.length t) in
  match split_point s with
  | (whole, None) =>
      if (1 <=? len whole) && (len whole <=? 15)
      then option_map float_of_Z (numeral whole 0)
      else None
  | (whole, Some fraction) =>
      if (1 <=? len whole) && (1 <=? len fraction)
         && (len whole + len fraction <=? 15)
      then option_map
             (fun m => PrimFloat.div (float_of_Z m) (float_of_Z (10 ^ len fraction)))
             (numeral (whole ++ fraction)%string 0)
      else None
  end.

(** ** Runs of creates and deletes *)

Inductive op : Type :=
| Create (item : ItemCreate)
| Delete (item_id : Z).

(** The creates of a run from [db], in order: the table each one found and
    the id it assigned. *)
Fixpoint creates (ops : list op) (db : Database) : list (Database * Z) :=
  match ops with
  | [] => []
  | Create item :: rest =>
      match create_item item db with
      | (Returns row, db') => (db, ItemModel.id row) :: creates rest db'
      | (Raises _, db') => creates rest db'
      | (Fails _, db') => creates rest db'
      end
  | Delete item_id :: rest => creates rest (snd (delete_item item_id db))
  end.

Definition assigned_ids (ops : list op) (db : Database) : list Z :=
  map snd (creates ops db).

(** Whether no delete of the run removes the row of the largest id: each
    delete is of an id that is not in the table it meets, or that is below
    the id of another row of it. *)
Fixpoint spares_largest (ops : list op) (db : Database) : bool :=
  match ops with
  | [] => true
  | Create item :: rest => spares_largest rest (snd (create_item item db))
  | Delete item_id :: rest =>
      (negb (present item_id db)
       || existsb (fun row => item_id <? ItemModel.id row) db)
      && spares_largest rest (snd (delete_item item_id db))
  end.

(** Requests used in the examples below. *)
Definition mouse : ItemCreate :=
  {| ItemBase.name := "Mouse";
     ItemBase.description := None;
     ItemBase.price := 29.99%float |}.

Definition keyboard : ItemCreate :=
  {| ItemBase.name := "Keyboard";
     ItemBase.description := Some "Mechanical keyboard";
     ItemBase.price := 59.5%float |}.

Definition long_name : string :=
  string_of_list_ascii (repeat "a"%char 101).

(** An id one past the largest signed 64-bit integer. *)
Definition huge_id : Z := 2 ^ 63.

(** The rows are kept in increasing rowid order. *)
Definition rowid_order (db : Database) : Prop :=
  StronglySorted Z.lt (rowids db).

(** ** Requests in sequence *)

(** The requests of a list served one after the other, each by its own
    session on the table the one before left. *)
Fixpoint serve (str_as_float : string -> option float)
    (bool_as_float : bool -> option float)
    (requests : list request) (db : Database) : list Response * Database :=
  match requests with
  | [] => ([], db)
  | r :: rest =>
      let (response, db') := app str_as_float bool_as_float r db in
      let (responses, db'') := serve str_as_float bool_as_float rest db' in
      (response :: responses, db'')
  end.

(** The requests whose route function only queries. *)
Definition is_get (r : request) : bool :=
  match r with
  | Get_root | Get_items | Get_item _ => true
  | Post_items _ | Put_item _ _ | Delete_item _ => false
  end.

(** The status codes a route is declared with or raises, and 500 where an
    uncaught exception or a return that does not validate can occur. *)
Definition statuses (r : request) : list Z :=
  match r with
  | Get_root => [200]
  | Get_items => [200; 500]
  | Get_item _ => [200; 404; 500]
  | Post_items _ => [201; 422; 500]
  | Put_item _ _ => [200; 404; 422; 500]
  | Delete_item _ => [204; 404; 500]
  end.

(** How many of the responses carry a status code. *)
Definition count_status (code : Z) (responses : list Response) : nat :=
  List.length (filter (fun response => Response.status_code response =? code) responses).

(** * Properties *)

(** ** The table *)

Lemma present_find (item_id : Z) (db : Database) :
  present item_id db = false ->
  find (fun row => ItemModel.id row =? item_id) db = None.
Proof.
  unfold present.
  induction db as [|row rest IH]; simpl; [reflexivity|].
  destruct (ItemModel.id row =? item_id); simpl; [discriminate|exact IH].
Qed.

Lemma find_present (item_id : Z) (db : Database) :
  present item_id db = true ->
  exists row,
    find (fun row => ItemModel.id row =? item_id) db = Some row
    /\ ItemModel.id row = item_id
    /\ In row db.
Proof.
  unfold present.
  induction db as [|row rest IH]; simpl; [discriminate|].
  destruct (ItemModel.id row =? item_id) eqn:E; simpl.
  - intros _. exists row. apply Z.eqb_eq in E. auto.
  - intros H. destruct (IH H) as (r & Hf & Hid & Hin). exists r. auto.
Qed.

Lemma present_false_iff (item_id : Z) (db : Database) :
  present item_id db = false <->
  Forall (fun row => ItemModel.id row <> item_id) db.
Proof.
  unfold present. induction db as [|row rest IH]; simpl.
  - split; auto.
  - rewrite orb_false_iff, IH, Z.eqb_neq. split.
    + intros [H1 H2]. constructor; assumption.
    + intros H. inversion H; subst. auto.
Qed.

(** [next_rowid] is above every rowid in use. *)
Lemma next_rowid_above (db : Database) :
  Forall (fun row => ItemModel.id row < next_rowid db) db.
Proof.
  unfold next_rowid. induction db as [|row rest IH]; simpl; [constructor|].
  constructor.
  - destruct (max_rowid rest); lia.
  - destruct (max_rowid rest) as [m|] eqn:E.
    + eapply Forall_impl; [|exact IH]. simpl. intros r Hr. lia.
    + destruct rest; [constructor|discriminate].
Qed.

(** In a table with rows, [next_rowid] is one more than a rowid in use. *)
Lemma next_rowid_attained (row : ItemModel) (rest : Database) :
  Exists (fun r => next_rowid (row :: rest) = ItemModel.id r + 1) (row :: rest).
Proof.
  revert row. unfold next_rowid.
  induction rest as [|row' rest IH]; intros row.
  - simpl. left. reflexivity.
  - specialize (IH row'). simpl in *.
    destruct (Z.max_spec (ItemModel.id row)
                (match max_rowid rest with
                 | Some m => Z.max (ItemModel.id row') m
                 | None => ItemModel.id row'
                 end)) as [[_ E]|[_ E]]; rewrite E.
    + right. exact IH.
    + left. reflexivity.
Qed.

Lemma next_rowid_absent (db : Database) :
  present (next_rowid db) db = false.
Proof.
  apply present_false_iff.
  eapply Forall_impl; [|apply next_rowid_above]. simpl. intros r Hr. lia.
Qed.

Lemma next_rowid_app (db : Database) (row : ItemModel) :
  ItemModel.id row = next_rowid db ->
  next_rowid (db ++ [row]) = ItemModel.id row + 1.
Proof.
  intros Hid. pose proof (next_rowid_above db) as Habove. rewrite <- Hid in Habove.
  clear Hid. unfold next_rowid.
  induction db as [|r rest IH]; simpl; [reflexivity|].
  inversion Habove as [|? ? Hr Hrest]; subst. specialize (IH Hrest).
  destruct (max_rowid (rest ++ [row])) as [m|] eqn:E.
  - lia.
  - destruct rest; discriminate.
Qed.

Lemma find_app_absent (item_id : Z) (db : Database) (row : ItemModel) :
  present item_id db = false ->
  ItemModel.id row = item_id ->
  find (fun r => ItemModel.id r =? item_id) (db ++ [row]) = Some row.
Proof.
  unfold present. intros Habsent Hid.
  induction db as [|r rest IH]; simpl in *.
  - apply Z.eqb_eq in Hid. rewrite Hid. reflexivity.
  - apply orb_false_iff in Habsent as [H1 H2]. rewrite H1. auto.
Qed.

Lemma present_rowids (item_id : Z) (db : Database) :
  present item_id db = true <-> In item_id (rowids db).
Proof.
  unfold present, rowids. induction db as [|r rest IH]; simpl.
  - split; [discriminate|contradiction].
  - rewrite orb_true_iff, IH, Z.eqb_eq. tauto.
Qed.

Lemma present_int64 (item_id : Z) (db : Database) :
  rowids_fit db = true -> present item_id db = true -> int64 item_id = true.
Proof.
  unfold rowids_fit. intros Hfit Hp. rewrite forallb_forall in Hfit.
  apply Hfit, present_rowids, Hp.
Qed.

Lemma filter_absent (item_id : Z) (db : Database) :
  present item_id db = false ->
  filter (fun r => negb (ItemModel.id r =? item_id)) db = db.
Proof.
  unfold present. induction db as [|r rest IH]; simpl; [reflexivity|].
  intros H. apply orb_false_iff in H as [H1 H2]. rewrite H1. simpl.
  f_equal. auto.
Qed.

Lemma map_replace_absent (item_id : Z) (row : ItemModel) (db : Database) :
  present item_id db = false ->
  map (fun r => if ItemModel.id r =? item_id then row else r) db = db.
Proof.
  unfold present. induction db as [|r rest IH]; simpl; [reflexivity|].
  intros H. apply orb_false_iff in H as [H1 H2]. rewrite H1. f_equal. auto.
Qed.

Lemma present_filter_out (item_id : Z) (db : Database) :
  present item_id (filter (fun r => negb (ItemModel.id r =? item_id)) db) = false.
Proof.
  apply present_false_iff, Forall_forall. intros r Hr.
  apply filter_In in Hr as [_ Hr]. apply negb_true_iff, Z.eqb_neq in Hr. exact Hr.
Qed.

Lemma find_some_present (item_id : Z) (db : Database) (row : ItemModel) :
  find (fun r => ItemModel.id r =? item_id) db = Some row ->
  present item_id db = true.
Proof.
  unfold present. induction db as [|r rest IH]; simpl; [discriminate|].
  destruct (ItemModel.id r =? item_id); [reflexivity|exact IH].
Qed.

Lemma find_map_replace (item_id : Z) (row : ItemModel) (db : Database) :
  present item_id db = true ->
  ItemModel.id row = item_id ->
  find (fun r => ItemModel.id r =? item_id)
    (map (fun r => if ItemModel.id r =? item_id then row else r) db)
  = Some row.
Proof.
  unfold present. intros H Hid.
  induction db as [|r rest IH]; simpl in *; [discriminate|].
  destruct (ItemModel.id r =? item_id) eqn:E; simpl in *.
  - apply Z.eqb_eq in Hid. rewrite Hid. reflexivity.
  - rewrite E. auto.
Qed.

Lemma StronglySorted_lt_NoDup (l : list Z) :
  StronglySorted Z.lt l -> NoDup l.
Proof.
  induction 1 as [|a l _ IH Hall]; constructor; [|exact IH].
  intros Hin. rewrite Forall_forall in Hall. specialize (Hall a Hin). lia.
Qed.

Lemma find_unique (row : ItemModel) (db : Database) :
  NoDup (rowids db) ->
  In row db ->
  find (fun r => ItemModel.id r =? ItemModel.id row) db = Some row.
Proof.
  unfold rowids. induction db as [|r rest IH]; simpl; [contradiction|].
  intros Hnd [->|Hin].
  - rewrite Z.eqb_refl. reflexivity.
  - inversion Hnd as [|? ? Hnotin Hrest]; subst.
    destruct (ItemModel.id r =? ItemModel.id row) eqn:E.
    + exfalso. apply Z.eqb_eq in E. apply Hnotin. rewrite E.
      apply in_map. exact Hin.
    + auto.
Qed.

Lemma next_rowid_unique (n : Z) (db : Database) :
  Forall (fun r => ItemModel.id r < n) db ->
  Exists (fun r => n = ItemModel.id r + 1) db ->
  n = next_rowid db.
Proof.
  intros Hall Hex. destruct db as [|r rest].
  - inversion Hex.
  - pose proof (next_rowid_above (r :: rest)) as Habove.
    pose proof (next_rowid_attained r rest) as Hatt.
    rewrite Forall_forall in Hall, Habove. rewrite Exists_exists in Hex, Hatt.
    destruct Hex as (x & Hx & Hxn). destruct Hatt as (y & Hy & Hyn).
    specialize (Habove x Hx). specialize (Hall y Hy). lia.
Qed.

Lemma next_rowid_positive (db : Database) :
  Forall (fun row => 1 <= ItemModel.id row) db -> 1 <= next_rowid db.
Proof.
  unfold next_rowid. destruct db as [|r rest]; simpl; [lia|].
  intros H. inversion H; subst. destruct (max_rowid rest); lia.
Qed.

(** A delete that spares the largest id leaves the next rowid as it was. *)
Lemma next_rowid_filter (item_id : Z) (db : Database) :
  Exists (fun row => item_id < ItemModel.id row) db ->
  next_rowid (filter (fun r => negb (ItemModel.id r =? item_id)) db)
  = next_rowid db.
Proof.
  intros Hlarger. pose proof (next_rowid_above db) as Habove.
  symmetry. apply next_rowid_unique.
  - rewrite Forall_forall in *. intros x Hx. apply filter_In in Hx.
    apply Habove. tauto.
  - destruct db as [|r rest]; [inversion Hlarger|].
    pose proof (next_rowid_attained r rest) as Hatt.
    rewrite Exists_exists in *. destruct Hatt as (y & Hy & Hyn).
    destruct Hlarger as (x & Hx & Hxlt).
    rewrite Forall_forall in Habove. specialize (Habove x Hx).
    exists y. split; [|exact Hyn]. apply filter_In. split; [exact Hy|].
    apply negb_true_iff, Z.eqb_neq. lia.
Qed.

(** ** The REAL column *)

Lemma is_nan_REAL (x : float) :
  PrimFloat.is_nan (REAL x) = PrimFloat.is_nan x.
Proof.
  unfold REAL. destruct (PrimFloat.is_nan x) eqn:E; [exact E|].
  destruct (PrimFloat.eqb x 0); [reflexivity|exact E].
Qed.

Lemma REAL_nonzero (x : float) :
  PrimFloat.eqb x 0 = false -> REAL x = x.
Proof.
  unfold REAL. intros H. rewrite H. destruct (PrimFloat.is_nan x); reflexivity.
Qed.

(** ** The route functions *)

Lemma create_item_returns (item : ItemCreate) (db : Database) :
  create_item item db
  = (Returns (ItemModel.mk (next_rowid db) (ItemBase.name item)
                (ItemBase.description item) (REAL (ItemBase.price item))),
     db ++ [ItemModel.mk (next_rowid db) (ItemBase.name item)
              (ItemBase.description item) (REAL (ItemBase.price item))]).
Proof.
  reflexivity.
Qed.

Lemma get_item_overflow (item_id : Z) (db : Database) :
  int64 item_id = false ->
  get_item item_id db = (Fails OverflowError, db).
Proof.
  intros H. unfold get_item, bind, Session.query_first. rewrite H. reflexivity.
Qed.

Lemma update_item_overflow (item_id : Z) (item : ItemCreate) (db : Database) :
  int64 item_id = false ->
  update_item item_id item db = (Fails OverflowError, db).
Proof.
  intros H. unfold update_item, bind, Session.query_first. rewrite H. reflexivity.
Qed.

Lemma delete_item_overflow (item_id : Z) (db : Database) :
  int64 item_id = false ->
  delete_item item_id db = (Fails OverflowError, db).
Proof.
  intros H. unfold delete_item, bind, Session.query_first. rewrite H. reflexivity.
Qed.

Lemma get_item_absent (item_id : Z) (db : Database) :
  int64 item_id = true ->
  present item_id db = false ->
  get_item item_id db = (Raises (not_found item_id), db).
Proof.
  intros Hi H. unfold get_item, bind, Session.query_first. rewrite Hi.
  rewrite (present_find _ _ H). reflexivity.
Qed.

Lemma update_item_absent (item_id : Z) (item : ItemCreate) (db : Database) :
  int64 item_id = true ->
  present item_id db = false ->
  update_item item_id item db = (Raises (not_found item_id), db).
Proof.
  intros Hi H. unfold update_item, bind, Session.query_first. rewrite Hi.
  rewrite (present_find _ _ H). reflexivity.
Qed.

Lemma delete_item_absent (item_id : Z) (db : Database) :
  int64 item_id = true ->
  present item_id db = false ->
  delete_item item_id db = (Raises (not_found item_id), db).
Proof.
  intros Hi H. unfold delete_item, bind, Session.query_first. rewrite Hi.
  rewrite (present_find _ _ H). reflexivity.
Qed.

Lemma get_item_present (item_id : Z) (db : Database) :
  int64 item_id = true ->
  present item_id db = true ->
  exists row,
    get_item item_id db = (Returns row, db)
    /\ ItemModel.id row = item_id
    /\ In row db.
Proof.
  intros Hi Hp. destruct (find_present _ _ Hp) as (row & Hfind & Hid & Hin).
  exists row. split; [|auto].
  unfold get_item, bind, Session.query_first. rewrite Hi, Hfind. reflexivity.
Qed.

Lemma update_item_present (item_id : Z) (item : ItemCreate) (db : Database) :
  int64 item_id = true ->
  present item_id db = true ->
  update_item item_id item db
  = (Returns (ItemModel.mk item_id (ItemBase.name item)
                (ItemBase.description item) (REAL (ItemBase.price item))),
     map (fun r =>
            if ItemModel.id r =? item_id
            then ItemModel.mk item_id (ItemBase.name item)
                   (ItemBase.description item) (REAL (ItemBase.price item))
            else r) db).
Proof.
  intros Hi H. destruct (find_present _ _ H) as (old & Hfind & Hid & _).
  unfold update_item, bind, Session.query_first. rewrite Hi, Hfind.
  unfold setattrs, Session.update, ret.
  cbn [ItemModel.id ItemModel.name ItemModel.description ItemModel.price].
  rewrite Hid. reflexivity.
Qed.

Lemma delete_item_present (item_id : Z) (db : Database) :
  int64 item_id = true ->
  present item_id db = true ->
  delete_item item_id db
  = (Returns tt, filter (fun r => negb (ItemModel.id r =? item_id)) db).
Proof.
  intros Hi H. destruct (find_present _ _ H) as (old & Hfind & Hid & _).
  unfold delete_item, bind, Session.query_first. rewrite Hi, Hfind.
  unfold Session.delete, ret. rewrite Hid. reflexivity.
Qed.

(** ** What each route does to the table *)

Lemma endpoint_table {A : Type} (status_code : Z)
    (response_model : A -> option content) (f : handler A) (db : Database) :
  snd (endpoint status_code response_model f db) = snd (f db).
Proof.
  unfold endpoint. destruct (f db) as [[a|e|e] db']; [|reflexivity|reflexivity].
  destruct (response_model a); reflexivity.
Qed.

Lemma POST_items_table (item : ItemCreate) (db : Database) :
  snd (POST_items item db)
  = db ++ [ItemModel.mk (next_rowid db) (ItemBase.name item)
             (ItemBase.description item) (REAL (ItemBase.price item))].
Proof.
  unfold POST_items. rewrite endpoint_table. reflexivity.
Qed.

Lemma PUT_item_table (item_id : Z) (item : ItemCreate) (db : Database) :
  snd (PUT_item item_id item db)
  = if int64 item_id
    then map (fun r =>
                if ItemModel.id r =? item_id
                then ItemModel.mk item_id (ItemBase.name item)
                       (ItemBase.description item) (REAL (ItemBase.price item))
                else r) db
    else db.
Proof.
  unfold PUT_item. rewrite endpoint_table.
  destruct (int64 item_id) eqn:Hi.
  - destruct (present item_id db) eqn:Hp.
    + rewrite (update_item_present _ _ _ Hi Hp). reflexivity.
    + rewrite (update_item_absent _ item _ Hi Hp). cbn [snd].
      symmetry. apply map_replace_absent, Hp.
  - rewrite (update_item_overflow _ item _ Hi). reflexivity.
Qed.

Lemma DELETE_item_table (item_id : Z) (db : Database) :
  snd (DELETE_item item_id db)
  = if int64 item_id
    then filter (fun r => negb (ItemModel.id r =? item_id)) db
    else db.
Proof.
  unfold DELETE_item. rewrite endpoint_table.
  destruct (int64 item_id) eqn:Hi.
  - destruct (present item_id db) eqn:Hp.
    + rewrite (delete_item_present _ _ Hi Hp). reflexivity.
    + rewrite (delete_item_absent _ _ Hi Hp). cbn [snd].
      symmetry. apply filter_absent, Hp.
  - rewrite (delete_item_overflow _ _ Hi). reflexivity.
Qed.

Lemma delete_item_table (item_id : Z) (db : Database) :
  snd (delete_item item_id db) = snd (DELETE_item item_id db).
Proof.
  unfold DELETE_item. rewrite endpoint_table. reflexivity.
Qed.

Lemma GET_item_table (item_id : Z) (db : Database) :
  snd (GET_item item_id db) = db.
Proof.
  unfold GET_item. rewrite endpoint_table.
  unfold get_item, bind, Session.query_first.
  destruct (int64 item_id); [|reflexivity].
  destruct (find _ db); reflexivity.
Qed.

Lemma GET_items_response (db : Database) :
  fst (GET_items db)
  = if forallb priced db
    then Response.mk 200 (items_content (map ItemResponse.from_orm db))
    else internal_server_error.
Proof.
  unfold GET_items, endpoint, get_all_items, bind, Session.query_all, ret,
    items_response.
  destruct (forallb priced db); reflexivity.
Qed.

(** The answer of [GET /items/{id}] is decided by the id and by the row the
    query finds. *)
Lemma GET_item_find (item_id : Z) (db1 db2 : Database) :
  find (fun r => ItemModel.id r =? item_id) db1
  = find (fun r => ItemModel.id r =? item_id) db2 ->
  fst (GET_item item_id db1) = fst (GET_item item_id db2).
Proof.
  intros H. unfold GET_item, endpoint, get_item, bind, Session.query_first.
  destruct (int64 item_id); [|reflexivity]. rewrite H.
  destruct (find (fun r => ItemModel.id r =? item_id) db2) as [row|];
    [|reflexivity].
  unfold ret, item_response. destruct (priced row); reflexivity.
Qed.

Lemma GET_item_row (row : ItemModel) (db : Database) :
  int64 (ItemModel.id row) = true ->
  find (fun r => ItemModel.id r =? ItemModel.id row) db = Some row ->
  GET_item (ItemModel.id row) db
  = (if priced row
     then Response.mk 200 (item_content (ItemResponse.from_orm row))
     else internal_server_error,
     db).
Proof.
  intros Hi Hfind. unfold GET_item, endpoint, get_item, bind, Session.query_first.
  rewrite Hi, Hfind. unfold ret, item_response. destruct (priced row); reflexivity.
Qed.

(** ** Rowid order

    The representation keeps the rows in increasing rowid order; every route
    function preserves it, which is why a new row belongs at the end. *)

Lemma rowid_order_add (item : ItemBase) (db : Database) :
  rowid_order db -> rowid_order (snd (Session.add item db)).
Proof.
  unfold rowid_order, rowids. simpl. intros Hs.
  pose proof (next_rowid_above db) as Habove.
  set (n := next_rowid db) in *. clearbody n.
  induction db as [|r rest IH]; simpl.
  - repeat constructor.
  - inversion Hs as [|? ? Hrest Hr]; subst.
    inversion Habove as [|? ? Hn Hrestn]; subst.
    constructor; [auto|].
    rewrite map_app, Forall_app. split; [assumption|].
    repeat constructor. simpl. assumption.
Qed.

Lemma rowid_order_filter (item_id : Z) (db : Database) :
  rowid_order db ->
  rowid_order (filter (fun r => negb (ItemModel.id r =? item_id)) db).
Proof.
  unfold rowid_order, rowids.
  induction db as [|r rest IH]; simpl; intros Hs; [constructor|].
  inversion Hs as [|? ? Hrest Hr]; subst.
  destruct (negb (ItemModel.id r =? item_id)); simpl; [|auto].
  constructor; [auto|].
  rewrite Forall_forall in *. intros x Hx. apply Hr.
  rewrite in_map_iff in *. destruct Hx as (y & Hy & Hin).
  exists y. split; [assumption|]. apply filter_In in Hin. tauto.
Qed.

Lemma rowid_order_startup : rowid_order startup.
Proof.
  unfold rowid_order. vm_compute. repeat constructor.
Qed.

Lemma rowids_PUT_item (item_id : Z) (item : ItemCreate) (db : Database) :
  rowids (snd (PUT_item item_id item db)) = rowids db.
Proof.
  rewrite PUT_item_table. destruct (int64 item_id); [|reflexivity].
  unfold rowids. rewrite map_map. apply map_ext.
  intros r. destruct (ItemModel.id r =? item_id) eqn:E; [|reflexivity].
  apply Z.eqb_eq in E. symmetry. exact E.
Qed.

(** ** Create *)

(** C2 fails on the code.  A body with the price [NaN] validates; the row
    is inserted under the next id with a NULL price, which the response
    model refuses, so [POST /items] is answered 500 although the row is in
    the table. *)
Theorem nan_price_create_answers_500 :
  let body := JObject [("name", JString "Mouse"); ("price", JNumber nan)] in
  let row := ItemModel.mk 4 "Mouse" None nan in
  validate plain_decimal (fun _ => None) body
  = inr (ItemBase.mk "Mouse" None nan)
  /\ create_item (ItemBase.mk "Mouse" None nan) startup
     = (Returns row, startup ++ [row])
  /\ priced row = false
  /\ app plain_decimal (fun _ => None) (Post_items body) startup
     = (Response.mk 500 (text_content "Internal Server Error"), startup ++ [row]).
Proof.
  intros body row. repeat split.
Qed.

(** X17. For every table and every validated request, [create_item]
    inserts after the existing rows, and returns, the full record: the name
    and description of the request, its price as the REAL column keeps it,
    and an id that is 1 in an empty table and otherwise one more than an id
    in the table and above all of them.  [POST /items] answers 201 with that
    record, unless the price is NaN, where it answers 500. *)
Theorem create_item_assigns_next_id (item : ItemCreate) (db : Database) :
  exists row,
    create_item item db = (Returns row, db ++ [row])
    /\ POST_items item db
       = (if PrimFloat.is_nan (ItemBase.price item)
          then internal_server_error
          else Response.mk 201 (item_content (ItemResponse.from_orm row)),
          db ++ [row])
    /\ ItemModel.name row = ItemBase.name item
    /\ ItemModel.description row = ItemBase.description item
    /\ ItemModel.price row = REAL (ItemBase.price item)
    /\ Forall (fun r => ItemModel.id r < ItemModel.id row) db
    /\ match db with
       | [] => ItemModel.id row = 1
       | _ :: _ => Exists (fun r => ItemModel.id row = ItemModel.id r + 1) db
       end.
Proof.
  eexists. split; [apply create_item_returns|]. split.
  - unfold POST_items, endpoint. rewrite create_item_returns.
    unfold item_response, priced. cbn [ItemModel.price].
    rewrite is_nan_REAL. destruct (PrimFloat.is_nan (ItemBase.price item));
      reflexivity.
  - cbn [ItemModel.name ItemModel.description ItemModel.price ItemModel.id].
    repeat split.
    + apply next_rowid_above.
    + destruct db as [|r rest]; [reflexivity|apply next_rowid_attained].
Qed.




(** ** Seed data *)

(** C3. On the table as it is after start-up, [GET /items] answers 200 with
    exactly the three seeded items, ids 1, 2, 3 in creation order: Laptop at
    1299.99, Smartphone at 899.99, Headphones at 249.99; the table is not
    changed by the request. *)
Theorem startup_lists_seeded_items
    (str_as_float : string -> option float) (bool_as_float : bool -> option float) :
  app str_as_float bool_as_float Get_items startup
  = (Response.mk 200
       (items_content
          [ ItemResponse.mk 1 "Laptop"
              (Some "A powerful laptop for development") 1299.99%float;
            ItemResponse.mk 2 "Smartphone"
              (Some "Latest smartphone model") 899.99%float;
            ItemResponse.mk 3 "Headphones"
              (Some "Noise-cancelling headphones") 249.99%float ]),
     startup).
Proof.
  reflexivity.
Qed.

(** ** Ids that are not in the table *)

(** C4, as the code has it.  For every id that is a signed 64-bit integer
    and that no row of the table carries, [GET /items/{id}] and
    [DELETE /items/{id}] answer with status 404 and the body
    [{"detail": "Item with ID {id} not found"}], the id being the requested
    one in decimal, and so does [PUT /items/{id}] when its body validates. *)
Theorem absent_id_answers_404
    (str_as_float : string -> option float) (bool_as_float : bool -> option float)
    (item_id : Z) (body : json) (item : ItemCreate) (db : Database) :
  present item_id db = false ->
  int64 item_id = true ->
  validate str_as_float bool_as_float body = inr item ->
  let answer :=
    Response.mk 404
      (detail_content ("Item with ID " ++ str item_id ++ " not found")%string) in
  fst (app str_as_float bool_as_float (Get_item item_id) db) = answer
  /\ fst (app str_as_float bool_as_float (Put_item item_id body) db) = answer
  /\ fst (app str_as_float bool_as_float (Delete_item item_id) db) = answer.
Proof.
  intros H Hi Hv answer. cbn [app]. rewrite Hv.
  unfold GET_item, PUT_item, DELETE_item, endpoint.
  rewrite (get_item_absent _ _ Hi H), (update_item_absent _ item _ Hi H),
    (delete_item_absent _ _ Hi H).
  repeat split.
Qed.

Lemma absent_id_answers_404_witness :
  let body := JObject [("name", JString "Mouse"); ("price", JNumber 29.99)] in
  present 7 startup = false
  /\ int64 7 = true
  /\ validate plain_decimal (fun _ => None) body = inr mouse
  /\ fst (app plain_decimal (fun _ => None) (Get_item 7) startup)
     = Response.mk 404 (detail_content "Item with ID 7 not found")
  /\ fst (app plain_decimal (fun _ => None) (Put_item 7 body) startup)
     = Response.mk 404 (detail_content "Item with ID 7 not found")
  /\ fst (app plain_decimal (fun _ => None) (Delete_item 7) startup)
     = Response.mk 404 (detail_content "Item with ID 7 not found").
Proof.
  intros body.
  split; [reflexivity|]. split; [reflexivity|]. split; [reflexivity|].
  exact (absent_id_answers_404 plain_decimal (fun _ => None) 7 body mouse startup
           eq_refl eq_refl eq_refl).
Defined.

(** C4 as stated fails: a [PUT /items/{id}] on an id that is not in the
    table, with a body that has no price, is answered 422, not 404: the
    body is validated before the route function looks the id up. *)
Lemma put_without_price_on_absent_id_answers_422 :
  let body := JObject [("name", JString "Mouse")] in
  present 7 startup = false
  /\ app plain_decimal (fun _ => None) (Put_item 7 body) startup
     = (Response.mk 422
          (errors_content [ {| loc := ["body"; "price"]; type := missing |} ]),
        startup).
Proof.
  intros body. split; reflexivity.
Qed.

(** C5 fails on the code.  For an id beyond the signed 64-bit range, which
    no row carries, the query raises [OverflowError] before the not-found
    check is reached: [get_item], [update_item] and [delete_item] end in
    that exception and the three routes answer 500, not 404.  The table is
    left as it was. *)
Theorem huge_id_answers_500 :
  present huge_id startup = false
  /\ get_item huge_id startup = (Fails OverflowError, startup)
  /\ update_item huge_id mouse startup = (Fails OverflowError, startup)
  /\ delete_item huge_id startup = (Fails OverflowError, startup)
  /\ GET_item huge_id startup
     = (Response.mk 500 (text_content "Internal Server Error"), startup)
  /\ PUT_item huge_id mouse startup
     = (Response.mk 500 (text_content "Internal Server Error"), startup)
  /\ DELETE_item huge_id startup
     = (Response.mk 500 (text_content "Internal Server Error"), startup).
Proof.
  repeat split.
Qed.

(** X18. No request on an id that is not in the table changes the table,
    whatever the id: [get_item], [update_item] and [delete_item] hand the
    table back as it was, raising the not-found error when the id is a
    signed 64-bit integer and ending in [OverflowError] when it is not. *)
Theorem absent_id_leaves_table (item_id : Z) (item : ItemCreate) (db : Database) :
  present item_id db = false ->
  let failure {A : Type} : outcome A :=
    if int64 item_id then Raises (not_found item_id) else Fails OverflowError in
  get_item item_id db = (failure, db)
  /\ update_item item_id item db = (failure, db)
  /\ delete_item item_id db = (failure, db)
  /\ snd (GET_item item_id db) = db
  /\ snd (PUT_item item_id item db) = db
  /\ snd (DELETE_item item_id db) = db.
Proof.
  intros H failure. unfold GET_item, PUT_item, DELETE_item.
  rewrite !endpoint_table. subst failure.
  destruct (int64 item_id) eqn:Hi.
  - rewrite (get_item_absent _ _ Hi H), (update_item_absent _ item _ Hi H),
      (delete_item_absent _ _ Hi H).
    repeat split.
  - rewrite (get_item_overflow _ _ Hi), (update_item_overflow _ item _ Hi),
      (delete_item_overflow _ _ Hi).
    repeat split.
Qed.

Lemma absent_id_leaves_table_witness :
  present (-2) startup = false
  /\ get_item (-2) startup = (Raises (not_found (-2)), startup)
  /\ update_item (-2) keyboard startup = (Raises (not_found (-2)), startup)
  /\ delete_item (-2) startup = (Raises (not_found (-2)), startup)
  /\ snd (GET_item (-2) startup) = startup
  /\ snd (PUT_item (-2) keyboard startup) = startup
  /\ snd (DELETE_item (-2) startup) = startup.
Proof.
  split; [reflexivity|].
  exact (absent_id_leaves_table (-2) keyboard startup eq_refl).
Defined.

(** ** Update *)

Lemma validate_inr (str_as_float : string -> option float)
    (bool_as_float : bool -> option float) (body : json) (item : ItemCreate) :
  validate str_as_float bool_as_float body = inr item ->
  exists members,
    body = JObject members
    /\ validate_name members = inr (ItemBase.name item)
    /\ validate_description members = inr (ItemBase.description item)
    /\ validate_price str_as_float bool_as_float members = inr (ItemBase.price item).
Proof.
  destruct body as [| | | | | |members]; try (simpl; discriminate).
  unfold validate.
  destruct (validate_name members) as [e1|n] eqn:En;
    destruct (validate_description members) as [e2|d] eqn:Ed;
    destruct (validate_price str_as_float bool_as_float members) as [e3|p] eqn:Ep;
    try (simpl; discriminate).
  intros H. injection H as <-. exists members. repeat split; assumption.
Qed.

(** What a validated item holds is what the body gave. *)
Lemma validate_fields (str_as_float : string -> option float)
    (bool_as_float : bool -> option float) (body : json) (item : ItemCreate) :
  validate str_as_float bool_as_float body = inr item ->
  member "name" body = Some (JString (ItemBase.name item))
  /\ ItemBase.description item
     = match member "description" body with
       | Some (JString s) => Some s
       | _ => None
       end
  /\ match member "price" body with
     | Some (JNumber x) => ItemBase.price item = x
     | Some (JInteger n) => float_of_int n = Some (ItemBase.price item)
     | Some v => lax_float str_as_float bool_as_float v = Some (ItemBase.price item)
     | None => False
     end.
Proof.
  intros Hv. destruct (validate_inr _ _ _ _ Hv) as (members & -> & Hn & Hd & Hp).
  cbn [member]. split; [|split].
  - unfold validate_name in Hn.
    destruct (get "name" members) as [[]|]; try discriminate.
    injection Hn as ->. reflexivity.
  - unfold validate_description in Hd.
    destruct (get "description" members) as [[]|]; try discriminate;
      injection Hd as <-; reflexivity.
  - unfold validate_price in Hp.
    destruct (get "price" members) as [[| b | x | n | s | |]|]; try discriminate;
      cbn [lax_float].
    + destruct (bool_as_float b); [|discriminate]. injection Hp as ->. reflexivity.
    + injection Hp as ->. reflexivity.
    + destruct (float_of_int n); [|discriminate]. injection Hp as ->. reflexivity.
    + destruct (str_as_float s); [|discriminate]. injection Hp as ->. reflexivity.
Qed.

(** C6, as the code has it.  For every id that a row of the table carries
    and every body that validated with a price that is not NaN,
    [PUT /items/{id}] answers 200 with the updated record: the id is the
    requested one, name and description are those of the body (the
    description null when the body has none or gives null), and the price
    is that of the body as the REAL column keeps it, which is the price
    itself unless it is a zero, kept as 0.0.  A get of the id afterwards
    returns exactly that record, and the table has, row by row, the new
    record where the id matches and the old row elsewhere. *)
Theorem update_item_overwrites
    (str_as_float : string -> option float) (bool_as_float : bool -> option float)
    (item_id : Z) (body : json) (item : ItemCreate) (db : Database) :
  rowids_fit db = true ->
  present item_id db = true ->
  validate str_as_float bool_as_float body = inr item ->
  PrimFloat.is_nan (ItemBase.price item) = false ->
  let row :=
    ItemModel.mk item_id (ItemBase.name item)
      (ItemBase.description item) (REAL (ItemBase.price item)) in
  let db' := snd (update_item item_id item db) in
  update_item item_id item db = (Returns row, db')
  /\ app str_as_float bool_as_float (Put_item item_id body) db
     = (Response.mk 200 (item_content (ItemResponse.from_orm row)), db')
  /\ get_item item_id db' = (Returns row, db')
  /\ app str_as_float bool_as_float (Get_item item_id) db'
     = (Response.mk 200 (item_content (ItemResponse.from_orm row)), db')
  /\ Forall2 (fun old new =>
                if ItemModel.id old =? item_id then new = row else new = old)
       db db'
  /\ member "name" body = Some (JString (ItemModel.name row))
  /\ ItemModel.description row
     = match member "description" body with
       | Some (JString s) => Some s
       | _ => None
       end
  /\ match member "price" body with
     | Some (JNumber x) => ItemBase.price item = x
     | Some (JInteger n) => float_of_int n = Some (ItemBase.price item)
     | Some v => lax_float str_as_float bool_as_float v = Some (ItemBase.price item)
     | None => False
     end
  /\ ItemModel.price row
     = (if PrimFloat.eqb (ItemBase.price item) 0
        then 0%float
        else ItemBase.price item).
Proof.
  intros Hfit Hp Hv Hnan row db'.
  assert (Hi : int64 item_id = true) by exact (present_int64 _ _ Hfit Hp).
  pose proof (update_item_present item_id item db Hi Hp) as Hu.
  fold row in Hu. subst db'. rewrite Hu. cbn [snd].
  set (db' := map (fun r => if ItemModel.id r =? item_id then row else r) db).
  assert (Hfind : find (fun r => ItemModel.id r =? item_id) db' = Some row)
    by (apply find_map_replace; [exact Hp|reflexivity]).
  assert (Hpriced : priced row = true).
  { unfold priced, row. cbn [ItemModel.price]. rewrite is_nan_REAL, Hnan.
    reflexivity. }
  destruct (validate_fields _ _ _ _ Hv) as (Hname & Hdesc & Hprice).
  split; [reflexivity|]. split; [|split; [|split; [|split]]].
  - cbn [app]. rewrite Hv. unfold PUT_item, endpoint. rewrite Hu.
    unfold item_response. rewrite Hpriced. reflexivity.
  - unfold get_item, bind, Session.query_first. rewrite Hi, Hfind. reflexivity.
  - cbn [app]. pose proof (GET_item_row row db' Hi Hfind) as Hg.
    change (ItemModel.id row) with item_id in Hg. rewrite Hg, Hpriced.
    reflexivity.
  - subst db'. clear. induction db as [|r rest IH]; simpl; constructor; [|exact IH].
    destruct (ItemModel.id r =? item_id); reflexivity.
  - split; [exact Hname|]. split; [exact Hdesc|]. split; [exact Hprice|].
    unfold row, REAL. cbn [ItemModel.price]. rewrite Hnan. reflexivity.
Qed.

Lemma update_item_overwrites_witness :
  let body := JObject [("name", JString "Mouse2"); ("price", JNumber 19.99)] in
  let row := ItemModel.mk 2 "Mouse2" None 19.99 in
  rowids_fit startup = true
  /\ present 2 startup = true
  /\ validate plain_decimal (fun _ => None) body
     = inr (ItemBase.mk "Mouse2" None 19.99)
  /\ PrimFloat.is_nan 19.99 = false
  /\ app plain_decimal (fun _ => None) (Put_item 2 body) startup
     = (Response.mk 200 (item_content (ItemResponse.mk 2 "Mouse2" None 19.99)),
        snd (update_item 2 (ItemBase.mk "Mouse2" None 19.99) startup))
  /\ get_item 2 (snd (update_item 2 (ItemBase.mk "Mouse2" None 19.99) startup))
     = (Returns row, snd (update_item 2 (ItemBase.mk "Mouse2" None 19.99) startup))
  /\ ItemModel.description row = None.
Proof.
  intros body row.
  split; [reflexivity|]. split; [reflexivity|]. split; [reflexivity|].
  split; [reflexivity|].
  destruct (update_item_overwrites plain_decimal (fun _ => None) 2 body
              (ItemBase.mk "Mouse2" None 19.99) startup
              eq_refl eq_refl eq_refl eq_refl)
    as (_ & Happ & Hget & _ & _ & _ & Hdesc & _).
  split; [exact Happ|]. split; [exact Hget|]. exact Hdesc.
Defined.

(** C6 as stated fails: the price of the request is not always the price
    stored.  A [PUT /items/2] with the price -0.0 is answered 200 with the
    price 0.0, a different double, and a get of the id afterwards returns
    0.0 as well. *)
Lemma negative_zero_price_comes_back_zero :
  let body := JObject [("name", JString "Mouse2"); ("price", JNumber (-0))] in
  validate plain_decimal (fun _ => None) body
  = inr (ItemBase.mk "Mouse2" None (-0))
  /\ fst (app plain_decimal (fun _ => None) (Put_item 2 body) startup)
     = Response.mk 200 (item_content (ItemResponse.mk 2 "Mouse2" None 0))
  /\ fst (GET_item 2 (snd (app plain_decimal (fun _ => None) (Put_item 2 body) startup)))
     = Response.mk 200 (item_content (ItemResponse.mk 2 "Mouse2" None 0))
  /\ (-0)%float <> 0%float.
Proof.
  intros body. repeat split. discriminate.
Qed.

(** ** Delete *)

(** C8. For every id that a row of the table carries, [DELETE /items/{id}]
    answers 204 with no body and leaves the table without any row of that
    id: a get of the id afterwards is not found (404), and the list
    afterwards is the previous list, in order, without the items of that
    id.  The list is answered 200 unless a row that is left has a NULL
    price, which no delete of another row mends. *)
Theorem delete_item_removes (item_id : Z) (db : Database) :
  rowids_fit db = true ->
  present item_id db = true ->
  let db' := snd (delete_item item_id db) in
  delete_item item_id db = (Returns tt, db')
  /\ DELETE_item item_id db = (Response.mk 204 no_content, db')
  /\ present item_id db' = false
  /\ get_item item_id db' = (Raises (not_found item_id), db')
  /\ fst (GET_item item_id db')
     = Response.mk 404
         (detail_content ("Item with ID " ++ str item_id ++ " not found")%string)
  /\ get_all_items db'
     = (Returns (filter (fun r => negb (ItemModel.id r =? item_id)) db), db')
  /\ fst (GET_items db')
     = (if forallb priced db'
        then Response.mk 200
               (items_content
                  (filter (fun i => negb (ItemResponse.id i =? item_id))
                     (map ItemResponse.from_orm db)))
        else internal_server_error)
  /\ Forall (fun row => ItemModel.id row <> item_id /\ In row db) db'.
Proof.
  intros Hfit Hp db'.
  assert (Hi : int64 item_id = true) by exact (present_int64 _ _ Hfit Hp).
  pose proof (delete_item_present item_id db Hi Hp) as Hd.
  subst db'. rewrite Hd. cbn [snd].
  pose proof (present_filter_out item_id db) as Habsent.
  split; [reflexivity|].
  split; [|split; [exact Habsent|split; [|split; [|split; [|split]]]]].
  - unfold DELETE_item, endpoint. rewrite Hd. reflexivity.
  - apply get_item_absent; [exact Hi|exact Habsent].
  - unfold GET_item, endpoint. rewrite (get_item_absent _ _ Hi Habsent).
    reflexivity.
  - reflexivity.
  - rewrite GET_items_response.
    destruct (forallb priced _); [|reflexivity]. do 2 f_equal.
    clear. induction db as [|r rest IH]; simpl; [reflexivity|].
    destruct (ItemModel.id r =? item_id); simpl; [exact IH|]. f_equal. exact IH.
  - apply Forall_forall. intros r Hr. apply filter_In in Hr as [Hin Hr].
    apply negb_true_iff, Z.eqb_neq in Hr. auto.
Qed.

Lemma delete_item_removes_witness :
  rowids_fit startup = true
  /\ present 2 startup = true
  /\ DELETE_item 2 startup
     = (Response.mk 204 no_content, snd (delete_item 2 startup))
  /\ rowids (snd (delete_item 2 startup)) = [1; 3]
  /\ fst (GET_item 2 (snd (delete_item 2 startup)))
     = Response.mk 404 (detail_content "Item with ID 2 not found").
Proof.
  split; [reflexivity|]. split; [reflexivity|].
  destruct (delete_item_removes 2 startup eq_refl eq_refl)
    as (_ & Hdel & _ & _ & Hget & _).
  split; [exact Hdel|]. split; [reflexivity|exact Hget].
Defined.

(** ** Ids over runs of creates and deletes *)

Lemma creates_cons_create (item : ItemCreate) (ops : list op) (db : Database) :
  creates (Create item :: ops) db
  = (db, next_rowid db) :: creates ops (snd (create_item item db)).
Proof.
  reflexivity.
Qed.

Lemma creates_cons_delete (item_id : Z) (ops : list op) (db : Database) :
  creates (Delete item_id :: ops) db
  = creates ops (snd (delete_item item_id db)).
Proof.
  reflexivity.
Qed.

Lemma next_rowid_create (item : ItemCreate) (db : Database) :
  next_rowid (snd (create_item item db)) = next_rowid db + 1.
Proof.
  rewrite create_item_returns. cbn [snd].
  rewrite next_rowid_app by reflexivity. reflexivity.
Qed.

Lemma next_rowid_spared (item_id : Z) (db : Database) :
  negb (present item_id db)
  || existsb (fun row => item_id <? ItemModel.id row) db = true ->
  next_rowid (snd (delete_item item_id db)) = next_rowid db.
Proof.
  intros H. rewrite delete_item_table, DELETE_item_table.
  destruct (int64 item_id); [|reflexivity].
  destruct (present item_id db) eqn:Hp; cbn [negb orb] in H.
  - apply next_rowid_filter. apply existsb_exists in H as (x & Hx & Hlt).
    apply Exists_exists. exists x. split; [exact Hx|]. apply Z.ltb_lt. exact Hlt.
  - rewrite (filter_absent _ _ Hp). reflexivity.
Qed.

Lemma spared_ids_increase (ops : list op) (db : Database) :
  spares_largest ops db = true ->
  StronglySorted Z.lt (assigned_ids ops db)
  /\ Forall (fun i => next_rowid db <= i) (assigned_ids ops db).
Proof.
  revert db. induction ops as [|[item|item_id] ops IH]; intros db Hs.
  - split; constructor.
  - cbn [spares_largest] in Hs. destruct (IH _ Hs) as [Hsorted Hfrom].
    rewrite next_rowid_create in Hfrom.
    unfold assigned_ids in *. rewrite creates_cons_create. cbn [map snd].
    split; constructor; try lia; try exact Hsorted;
      (eapply Forall_impl; [|exact Hfrom]); cbv beta; intros; lia.
  - cbn [spares_largest] in Hs. apply andb_true_iff in Hs as [Hspare Hs].
    destruct (IH _ Hs) as [Hsorted Hfrom].
    rewrite (next_rowid_spared _ _ Hspare) in Hfrom.
    unfold assigned_ids in *. cbn [creates]. split; assumption.
Qed.

Lemma create_then_delete (item : ItemCreate) (db : Database) :
  snd (delete_item (next_rowid db) (snd (create_item item db)))
  = if int64 (next_rowid db) then db else snd (create_item item db).
Proof.
  rewrite delete_item_table, DELETE_item_table.
  destruct (int64 (next_rowid db)); [|reflexivity].
  rewrite create_item_returns. cbn [snd].
  rewrite filter_app, (filter_absent _ _ (next_rowid_absent db)).
  cbn [filter ItemModel.id]. rewrite Z.eqb_refl. cbn [negb].
  apply app_nil_r.
Qed.

(** C1, as the code has it.  In every run of creates and deletes from any
    table, each create assigns the largest id of the table at that moment
    plus 1, or 1 when the table is empty, so an id above every stored one.
    As long as no delete removes the row of the largest id, the assigned ids
    are strictly increasing and above every id the table held at the start,
    so that no deleted id is assigned again.  A create, the delete of the id
    it assigned and another create assign the same id twice. *)
Theorem create_ids_above_stored_ids (ops : list op) (first second : ItemCreate)
    (db : Database) :
  Forall (fun c =>
            Forall (fun row => ItemModel.id row < snd c) (fst c)
            /\ match fst c with
               | [] => snd c = 1
               | _ :: _ => Exists (fun row => snd c = ItemModel.id row + 1) (fst c)
               end)
    (creates ops db)
  /\ (if spares_largest ops db
      then StronglySorted Z.lt (assigned_ids ops db)
           /\ Forall (fun i => Forall (fun row => ItemModel.id row < i) db)
                (assigned_ids ops db)
      else True)
  /\ assigned_ids [Create first; Delete (next_rowid db); Create second] db
     = (if int64 (next_rowid db)
        then [next_rowid db; next_rowid db]
        else [next_rowid db; next_rowid db + 1]).
Proof.
  split; [|split].
  - revert db. induction ops as [|[item|item_id] ops IH]; intros db.
    + constructor.
    + rewrite creates_cons_create. constructor; [|apply IH].
      cbn [fst snd]. split; [apply next_rowid_above|].
      destruct db as [|r rest]; [reflexivity|apply next_rowid_attained].
    + cbn [creates]. apply IH.
  - destruct (spares_largest ops db) eqn:Hs; [|exact I].
    destruct (spared_ids_increase ops db Hs) as [Hsorted Hfrom].
    split; [exact Hsorted|].
    eapply Forall_impl; [|exact Hfrom]. cbv beta. intros i Hi.
    eapply Forall_impl; [|apply next_rowid_above]. cbv beta. intros row Hrow. lia.
  - unfold assigned_ids. rewrite creates_cons_create, creates_cons_delete.
    rewrite create_then_delete.
    destruct (int64 (next_rowid db)).
    + rewrite creates_cons_create. reflexivity.
    + rewrite creates_cons_create, next_rowid_create. reflexivity.
Qed.

Lemma create_ids_above_stored_ids_witness :
  let ops := [Create mouse; Delete 2; Delete 9; Create keyboard; Create mouse] in
  spares_largest ops startup = true
  /\ int64 (next_rowid startup) = true
  /\ assigned_ids ops startup = [4; 5; 6]
  /\ StronglySorted Z.lt (assigned_ids ops startup)
  /\ assigned_ids [Create mouse; Delete (next_rowid startup); Create keyboard] startup
     = [4; 4].
Proof.
  intros ops.
  split; [reflexivity|]. split; [reflexivity|]. split; [reflexivity|].
  destruct (create_ids_above_stored_ids ops mouse keyboard startup)
    as (_ & Hinc & Hagain).
  split; [exact (proj1 Hinc)|exact Hagain].
Defined.

(** C1 as stated fails: from the seeded table, create assigns 4, the item 4
    is deleted, and the next create assigns 4 again. *)
Lemma deleted_id_assigned_again :
  let ops := [Create mouse; Delete 4; Create keyboard] in
  assigned_ids ops startup = [4; 4]
  /\ present 4 (snd (delete_item 4 (snd (create_item mouse startup)))) = false
  /\ ~ StronglySorted Z.lt (assigned_ids ops startup).
Proof.
  split; [reflexivity|]. split; [reflexivity|].
  change (~ StronglySorted Z.lt [4; 4]).
  intros H. inversion H as [|? ? _ Hall]; subst.
  inversion Hall as [|? ? Hlt _]; subst. lia.
Qed.

(** ** Request bodies that do not validate *)

Lemma validate_errors_nonempty (str_as_float : string -> option float)
    (bool_as_float : bool -> option float) (body : json)
    (errors : list validation_error) :
  validate str_as_float bool_as_float body = inl errors -> errors <> [].
Proof.
  destruct body as [| | | | | |members];
    try (simpl; intros H; injection H as <-; discriminate).
  unfold validate.
  destruct (validate_name members) as [e1|n];
    destruct (validate_description members) as [e2|d];
    destruct (validate_price str_as_float bool_as_float members) as [e3|p];
    simpl; intros H; try discriminate; injection H as <-; discriminate.
Qed.

(** C9, as the code has it.  A [POST /items] or [PUT /items/{id}] whose body
    has no name or no price, or gives for the name a value that is not a
    string, or for the price a value that is not a number and that the float
    validator does not read as one either, is answered with 422 and a
    non-empty list of errors, and the table is not changed. *)
Theorem invalid_body_answers_422
    (str_as_float : string -> option float) (bool_as_float : bool -> option float)
    (body : json) (item_id : Z) (db : Database) :
  member "name" body = None
  \/ member "price" body = None
  \/ (exists v, member "name" body = Some v /\ is_string v = false)
  \/ (exists v, member "price" body = Some v
                /\ is_number v = false
                /\ lax_float str_as_float bool_as_float v = None) ->
  exists errors,
    errors <> []
    /\ app str_as_float bool_as_float (Post_items body) db
       = (Response.mk 422 (errors_content errors), db)
    /\ app str_as_float bool_as_float (Put_item item_id body) db
       = (Response.mk 422 (errors_content errors), db).
Proof.
  intros H.
  destruct (validate str_as_float bool_as_float body) as [errors|item] eqn:Hv.
  - exists errors. split; [exact (validate_errors_nonempty _ _ _ _ Hv)|].
    unfold app. rewrite Hv. split; reflexivity.
  - exfalso.
    destruct (validate_inr _ _ _ _ Hv) as (members & -> & Hn & _ & Hp).
    unfold validate_name in Hn. unfold validate_price in Hp. simpl in H.
    destruct H as [H|[H|[(v & H & Hs)|(v & H & Hnum & Hlax)]]];
      rewrite H in *; try discriminate.
    + destruct v; discriminate.
    + destruct v; try discriminate; simpl in Hlax; rewrite Hlax in Hp; discriminate.
Qed.

Lemma invalid_body_answers_422_witness :
  let body := JObject [("name", JString "Mouse")] in
  member "price" body = None
  /\ exists errors,
       errors <> []
       /\ app plain_decimal (fun _ => None) (Post_items body) startup
          = (Response.mk 422 (errors_content errors), startup)
       /\ app plain_decimal (fun _ => None) (Put_item 1 body) startup
          = (Response.mk 422 (errors_content errors), startup).
Proof.
  intros body. split; [reflexivity|].
  apply (invalid_body_answers_422 plain_decimal (fun _ => None) body 1 startup).
  right. left. reflexivity.
Defined.

(** C9 as stated fails: a price given as the JSON string ["29.99"], which is
    not a number, is read as the float 29.99; the POST is answered 201 and
    inserts a row, the PUT is answered 200 and rewrites one. *)
Lemma numeral_string_price_accepted :
  let body := JObject [("name", JString "Mouse"); ("price", JString "29.99")] in
  member "price" body = Some (JString "29.99")
  /\ is_number (JString "29.99") = false
  /\ app plain_decimal (fun _ => None) (Post_items body) startup
     = (Response.mk 201 (item_content (ItemResponse.mk 4 "Mouse" None 29.99)),
        startup ++ [ItemModel.mk 4 "Mouse" None 29.99])
  /\ fst (app plain_decimal (fun _ => None) (Put_item 1 body) startup)
     = Response.mk 200 (item_content (ItemResponse.mk 1 "Mouse" None 29.99))
  /\ snd (app plain_decimal (fun _ => None) (Put_item 1 body) startup) <> startup.
Proof.
  intros body. repeat split.
  vm_compute. discriminate.
Qed.

(** ** Declared column lengths *)

(** C10 fails on the code.  A create whose name has 101 characters is
    answered 201 and the row is stored with that name, longer than the 100
    the column declares; an update does the same to an existing row. *)
Theorem long_name_is_stored :
  let item := ItemBase.mk long_name None 1 in
  (String.length long_name = 101)%nat
  /\ (name_max_length < String.length long_name)%nat
  /\ (exists row,
        POST_items item startup
        = (Response.mk 201 (item_content (ItemResponse.from_orm row)),
           startup ++ [row])
        /\ ItemModel.name row = long_name)
  /\ (exists row,
        fst (PUT_item 1 item startup)
        = Response.mk 200 (item_content (ItemResponse.from_orm row))
        /\ In row (snd (PUT_item 1 item startup))
        /\ ItemModel.name row = long_name).
Proof.
  intros item. split; [reflexivity|]. split; [vm_compute; lia|]. split.
  - eexists. split; reflexivity.
  - exists (ItemModel.mk 1 long_name None 1). split; [reflexivity|].
    split; [left; reflexivity|reflexivity].
Qed.


(** * Further properties of the routes *)

(** ** Ids stay in order *)

(** What every route keeps of a table: rows in increasing rowid order, and
    rowids from 1 up. *)
Lemma app_keeps_order_and_sign (str_as_float : string -> option float)
    (bool_as_float : bool -> option float) (r : request) (db : Database) :
  rowid_order db /\ Forall (fun i => 1 <= i) (rowids db) ->
  rowid_order (snd (app str_as_float bool_as_float r db))
  /\ Forall (fun i => 1 <= i) (rowids (snd (app str_as_float bool_as_float r db))).
Proof.
  intros [Ho Hs].
  assert (Hadd : forall item,
            rowid_order (snd (POST_items item db))
            /\ Forall (fun i => 1 <= i) (rowids (snd (POST_items item db)))).
  { intros item. unfold POST_items. rewrite endpoint_table.
    split; [exact (rowid_order_add item db Ho)|].
    rewrite create_item_returns. cbn [snd].
    unfold rowids in *. rewrite map_app, Forall_app.
    split; [exact Hs|]. repeat constructor. cbn [ItemModel.id].
    apply next_rowid_positive. rewrite Forall_map in Hs. exact Hs. }
  assert (Hput : forall item_id item,
            rowid_order (snd (PUT_item item_id item db))
            /\ Forall (fun i => 1 <= i) (rowids (snd (PUT_item item_id item db)))).
  { intros item_id item. unfold rowid_order. rewrite rowids_PUT_item. auto. }
  destruct r as [| |item_id|body|item_id body|item_id]; cbn [app].
  - auto.
  - unfold GET_items. rewrite endpoint_table. auto.
  - rewrite GET_item_table. auto.
  - destruct (validate str_as_float bool_as_float body); [auto|apply Hadd].
  - destruct (validate str_as_float bool_as_float body); [auto|apply Hput].
  - rewrite DELETE_item_table. destruct (int64 item_id); [|auto]. split.
    + exact (rowid_order_filter item_id db Ho).
    + unfold rowids in *. rewrite Forall_map in *. rewrite Forall_forall in *.
      intros x Hx. apply filter_In in Hx. apply Hs. tauto.
Qed.

(** X1. Every request, answered on a table whose rows are in increasing
    rowid order with rowids from 1 up, leaves a table of the same kind; in
    particular no two rows of it share an id. *)
Theorem app_keeps_ids_unique (str_as_float : string -> option float)
    (bool_as_float : bool -> option float) (r : request) (db : Database) :
  rowid_order db ->
  Forall (fun i => 1 <= i) (rowids db) ->
  let db' := snd (app str_as_float bool_as_float r db) in
  rowid_order db' /\ Forall (fun i => 1 <= i) (rowids db') /\ NoDup (rowids db').
Proof.
  intros Ho Hs db'.
  destruct (app_keeps_order_and_sign str_as_float bool_as_float r db (conj Ho Hs))
    as [Ho' Hs'].
  split; [exact Ho'|]. split; [exact Hs'|].
  apply StronglySorted_lt_NoDup. exact Ho'.
Qed.

Lemma startup_order_and_sign :
  rowid_order startup /\ Forall (fun i => 1 <= i) (rowids startup).
Proof.
  split; [exact rowid_order_startup|].
  vm_compute. repeat constructor; discriminate.
Qed.

Lemma app_keeps_ids_unique_witness :
  rowid_order startup
  /\ Forall (fun i => 1 <= i) (rowids startup)
  /\ NoDup (rowids (snd (app plain_decimal (fun _ => None) (Delete_item 2) startup))).
Proof.
  split; [exact (proj1 startup_order_and_sign)|].
  split; [exact (proj2 startup_order_and_sign)|].
  exact (proj2 (proj2 (app_keeps_ids_unique plain_decimal (fun _ => None)
                         (Delete_item 2) startup
                         (proj1 startup_order_and_sign)
                         (proj2 startup_order_and_sign)))).
Defined.

Lemma serve_keeps_order_and_sign (str_as_float : string -> option float)
    (bool_as_float : bool -> option float) (requests : list request)
    (db : Database) :
  rowid_order db /\ Forall (fun i => 1 <= i) (rowids db) ->
  rowid_order (snd (serve str_as_float bool_as_float requests db))
  /\ Forall (fun i => 1 <= i)
       (rowids (snd (serve str_as_float bool_as_float requests db))).
Proof.
  revert db. induction requests as [|r rest IH]; intros db H; [exact H|].
  cbn [serve].
  pose proof (app_keeps_order_and_sign str_as_float bool_as_float r db H) as H'.
  destruct (app str_as_float bool_as_float r db) as [response db'].
  specialize (IH db' H').
  destruct (serve str_as_float bool_as_float rest db') as [responses db''].
  exact IH.
Qed.

(** X2. Whatever requests the service has answered since start-up, the
    rows of its table are in increasing id order, all ids are at least 1 and
    no two rows share an id.  [GET /items] then answers 200 with the items
    by increasing id, or 500 if some row has a NULL price. *)
Theorem served_table_ids_unique (str_as_float : string -> option float)
    (bool_as_float : bool -> option float) (requests : list request) :
  let db := snd (serve str_as_float bool_as_float requests startup) in
  rowid_order db
  /\ Forall (fun i => 1 <= i) (rowids db)
  /\ NoDup (rowids db)
  /\ fst (GET_items db)
     = (if forallb priced db
        then Response.mk 200 (items_content (map ItemResponse.from_orm db))
        else internal_server_error)
  /\ map ItemResponse.id (map ItemResponse.from_orm db) = rowids db.
Proof.
  intros db.
  destruct (serve_keeps_order_and_sign str_as_float bool_as_float requests startup
              startup_order_and_sign) as [Ho Hs].
  fold db in Ho, Hs.
  split; [exact Ho|]. split; [exact Hs|].
  split; [apply StronglySorted_lt_NoDup; exact Ho|].
  split; [apply GET_items_response|].
  unfold rowids. rewrite map_map. reflexivity.
Qed.

(** ** Status codes and writes *)

Lemma GET_item_status (item_id : Z) (db : Database) :
  let code := Response.status_code (fst (GET_item item_id db)) in
  if int64 item_id
  then if present item_id db then code = 200 \/ code = 500 else code = 404
  else code = 500.
Proof.
  unfold GET_item, endpoint. destruct (int64 item_id) eqn:Hi.
  - destruct (present item_id db) eqn:Hp.
    + destruct (get_item_present _ _ Hi Hp) as (row & -> & _).
      unfold item_response. destruct (priced row); [left|right]; reflexivity.
    + rewrite (get_item_absent _ _ Hi Hp). reflexivity.
  - rewrite (get_item_overflow _ _ Hi). reflexivity.
Qed.

Lemma PUT_item_response (item_id : Z) (item : ItemCreate) (db : Database) :
  fst (PUT_item item_id item db)
  = if int64 item_id
    then if present item_id db
         then if PrimFloat.is_nan (ItemBase.price item)
              then internal_server_error
              else Response.mk 200
                     (item_content
                        (ItemResponse.mk item_id (ItemBase.name item)
                           (ItemBase.description item)
                           (REAL (ItemBase.price item))))
         else Response.mk 404
                (detail_content (HTTPException.detail (not_found item_id)))
    else internal_server_error.
Proof.
  unfold PUT_item, endpoint. destruct (int64 item_id) eqn:Hi.
  - destruct (present item_id db) eqn:Hp.
    + rewrite (update_item_present _ _ _ Hi Hp).
      unfold item_response, priced. cbn [ItemModel.price]. rewrite is_nan_REAL.
      destruct (PrimFloat.is_nan (ItemBase.price item)); reflexivity.
    + rewrite (update_item_absent _ item _ Hi Hp). reflexivity.
  - rewrite (update_item_overflow _ item _ Hi). reflexivity.
Qed.

Lemma DELETE_item_response (item_id : Z) (db : Database) :
  fst (DELETE_item item_id db)
  = if int64 item_id
    then if present item_id db
         then Response.mk 204 no_content
         else Response.mk 404
                (detail_content (HTTPException.detail (not_found item_id)))
    else internal_server_error.
Proof.
  unfold DELETE_item, endpoint. destruct (int64 item_id) eqn:Hi.
  - destruct (present item_id db) eqn:Hp.
    + rewrite (delete_item_present _ _ Hi Hp). reflexivity.
    + rewrite (delete_item_absent _ _ Hi Hp). reflexivity.
  - rewrite (delete_item_overflow _ _ Hi). reflexivity.
Qed.

Lemma POST_items_response (item : ItemCreate) (db : Database) :
  fst (POST_items item db)
  = if PrimFloat.is_nan (ItemBase.price item)
    then internal_server_error
    else Response.mk 201
           (item_content
              (ItemResponse.mk (next_rowid db) (ItemBase.name item)
                 (ItemBase.description item) (REAL (ItemBase.price item)))).
Proof.
  unfold POST_items, endpoint. rewrite create_item_returns.
  unfold item_response, priced. cbn [ItemModel.price]. rewrite is_nan_REAL.
  destruct (PrimFloat.is_nan (ItemBase.price item)); reflexivity.
Qed.

(** X3. Every response carries one of the status codes of its route: 200
    for the root; 200 or 500 for the list; 200, 404 or 500 for a get; 201,
    422 or 500 for a post; 200, 404, 422 or 500 for a put; 204, 404 or 500
    for a delete.  The table is handed back unchanged unless the request is
    a post, put or delete answered 200, 201, 204 or 500: no get and no
    request answered 404 or 422 writes. *)
Theorem status_of_route_and_writes (str_as_float : string -> option float)
    (bool_as_float : bool -> option float) (r : request) (db : Database) :
  let response := fst (app str_as_float bool_as_float r db) in
  let db' := snd (app str_as_float bool_as_float r db) in
  In (Response.status_code response) (statuses r)
  /\ (db' = db
      \/ (is_get r = false
          /\ In (Response.status_code response) [200; 201; 204; 500])).
Proof.
  destruct r as [| |item_id|body|item_id body|item_id]; cbn [app statuses is_get].
  - split; [left; reflexivity|left; reflexivity].
  - rewrite GET_items_response. split; [|left; unfold GET_items;
                                          rewrite endpoint_table; reflexivity].
    destruct (forallb priced db); [left|right; left]; reflexivity.
  - rewrite GET_item_table. split; [|left; reflexivity].
    pose proof (GET_item_status item_id db) as H. cbv zeta in H.
    destruct (int64 item_id); [destruct (present item_id db)|].
    + destruct H as [-> | ->]; [left|right; right; left]; reflexivity.
    + rewrite H. right. left. reflexivity.
    + rewrite H. right. right. left. reflexivity.
  - destruct (validate str_as_float bool_as_float body) as [errors|item].
    + split; [right; left; reflexivity|left; reflexivity].
    + rewrite POST_items_response.
      destruct (PrimFloat.is_nan (ItemBase.price item)); cbn.
      * split; [tauto|]. right. split; [reflexivity|tauto].
      * split; [tauto|]. right. split; [reflexivity|tauto].
  - destruct (validate str_as_float bool_as_float body) as [errors|item].
    + split; [right; right; left; reflexivity|left; reflexivity].
    + rewrite PUT_item_response, PUT_item_table.
      destruct (int64 item_id); [destruct (present item_id db) eqn:Hp|].
      * destruct (PrimFloat.is_nan (ItemBase.price item)); cbn;
          (split; [tauto|]); right; (split; [reflexivity|tauto]).
      * rewrite (map_replace_absent _ _ _ Hp). cbn. split; [tauto|left; reflexivity].
      * cbn. split; [tauto|left; reflexivity].
  - rewrite DELETE_item_response, DELETE_item_table.
    destruct (int64 item_id); [destruct (present item_id db) eqn:Hp|].
    + cbn. split; [tauto|]. right. split; [reflexivity|tauto].
    + rewrite (filter_absent _ _ Hp). cbn. split; [tauto|left; reflexivity].
    + cbn. split; [tauto|left; reflexivity].
Qed.

(** X4. For an id that is a signed 64-bit integer, the three routes that
    name it answer 404 exactly when no row carries it: the status of a get
    or of a put with a validated body is 404 if and only if the id is not
    in the table, and that of a delete is 204 if it is and 404 if not. *)
Theorem status_tells_presence (item_id : Z) (item : ItemCreate) (db : Database) :
  int64 item_id = true ->
  (Response.status_code (fst (GET_item item_id db)) =? 404)
  = negb (present item_id db)
  /\ (Response.status_code (fst (PUT_item item_id item db)) =? 404)
     = negb (present item_id db)
  /\ Response.status_code (fst (DELETE_item item_id db))
     = (if present item_id db then 204 else 404).
Proof.
  intros Hi. rewrite PUT_item_response, DELETE_item_response, Hi.
  pose proof (GET_item_status item_id db) as H. cbv zeta in H. rewrite Hi in H.
  destruct (present item_id db).
  - split; [destruct H as [-> | ->]; reflexivity|].
    split; [|reflexivity].
    destruct (PrimFloat.is_nan (ItemBase.price item)); reflexivity.
  - rewrite H. repeat split.
Qed.

Lemma status_tells_presence_witness :
  int64 2 = true
  /\ (Response.status_code (fst (GET_item 2 startup)) =? 404) = false
  /\ (Response.status_code (fst (PUT_item 2 mouse startup)) =? 404) = false
  /\ Response.status_code (fst (DELETE_item 2 startup)) = 204.
Proof.
  split; [reflexivity|].
  exact (status_tells_presence 2 mouse startup eq_refl).
Defined.

(** ** The list and the single get agree *)

(** X5. On a table in rowid order, every item that [GET /items] lists is
    the item that [GET /items/{id}] returns, with status 200, for its id. *)
Theorem listed_items_are_gettable (items : list ItemResponse) (item : ItemResponse)
    (db : Database) :
  rowid_order db ->
  rowids_fit db = true ->
  fst (GET_items db) = Response.mk 200 (items_content items) ->
  In item items ->
  GET_item (ItemResponse.id item) db = (Response.mk 200 (item_content item), db).
Proof.
  intros Ho Hfit Hlist Hin. rewrite GET_items_response in Hlist.
  destruct (forallb priced db) eqn:Hpriced; [|discriminate].
  injection Hlist as <-. apply in_map_iff in Hin as (row & <- & Hrow).
  rewrite forallb_forall in Hpriced. specialize (Hpriced row Hrow).
  change (ItemResponse.id (ItemResponse.from_orm row)) with (ItemModel.id row).
  rewrite (GET_item_row row db).
  - rewrite Hpriced. reflexivity.
  - apply (present_int64 _ db Hfit). apply present_rowids.
    apply in_map. exact Hrow.
  - apply find_unique; [apply StronglySorted_lt_NoDup; exact Ho|exact Hrow].
Qed.

Lemma listed_items_are_gettable_witness :
  let item := ItemResponse.mk 2 "Smartphone" (Some "Latest smartphone model") 899.99 in
  rowid_order startup
  /\ rowids_fit startup = true
  /\ fst (GET_items startup)
     = Response.mk 200 (items_content (map ItemResponse.from_orm startup))
  /\ In item (map ItemResponse.from_orm startup)
  /\ GET_item 2 startup = (Response.mk 200 (item_content item), startup).
Proof.
  intros item.
  assert (Hin : In item (map ItemResponse.from_orm startup))
    by (right; left; reflexivity).
  split; [exact rowid_order_startup|]. split; [reflexivity|].
  split; [reflexivity|]. split; [exact Hin|].
  exact (listed_items_are_gettable (map ItemResponse.from_orm startup) item startup
           rowid_order_startup eq_refl eq_refl Hin).
Defined.

(** ** Requests on one id leave the other ids alone *)


Lemma find_map_other (item_id other : Z) (row : ItemModel) (db : Database) :
  other <> item_id ->
  ItemModel.id row = item_id ->
  find (fun r => ItemModel.id r =? other)
    (map (fun r => if ItemModel.id r =? item_id then row else r) db)
  = find (fun r => ItemModel.id r =? other) db.
Proof.
  intros Hne Hid. induction db as [|r rest IH]; simpl; [reflexivity|].
  destruct (ItemModel.id r =? item_id) eqn:E.
  - apply Z.eqb_eq in E.
    assert (H1 : (ItemModel.id row =? other) = false) by (apply Z.eqb_neq; lia).
    assert (H2 : (ItemModel.id r =? other) = false) by (apply Z.eqb_neq; lia).
    rewrite H1, H2. exact IH.
  - destruct (ItemModel.id r =? other); [reflexivity|exact IH].
Qed.

Lemma find_filter_other (item_id other : Z) (db : Database) :
  other <> item_id ->
  find (fun r => ItemModel.id r =? other)
    (filter (fun r => negb (ItemModel.id r =? item_id)) db)
  = find (fun r => ItemModel.id r =? other) db.
Proof.
  intros Hne. induction db as [|r rest IH]; simpl; [reflexivity|].
  destruct (ItemModel.id r =? item_id) eqn:E; simpl.
  - apply Z.eqb_eq in E.
    assert (H : (ItemModel.id r =? other) = false) by (apply Z.eqb_neq; lia).
    rewrite H. exact IH.
  - destruct (ItemModel.id r =? other); [reflexivity|exact IH].
Qed.



(** X7. An update and a delete of one id change no answer for any other
    id: after [PUT /items/{id}] or [DELETE /items/{id}], whether it
    succeeded or not, a get of a different id is answered as before. *)
Theorem other_ids_untouched (item_id other : Z) (item : ItemCreate) (db : Database) :
  other <> item_id ->
  fst (GET_item other (snd (PUT_item item_id item db))) = fst (GET_item other db)
  /\ fst (GET_item other (snd (DELETE_item item_id db))) = fst (GET_item other db).
Proof.
  intros Hne. split; apply GET_item_find.
  - rewrite PUT_item_table. destruct (int64 item_id); [|reflexivity].
    apply find_map_other; [exact Hne|reflexivity].
  - rewrite DELETE_item_table. destruct (int64 item_id); [|reflexivity].
    apply find_filter_other. exact Hne.
Qed.

Lemma other_ids_untouched_witness :
  3 <> 2
  /\ fst (GET_item 3 (snd (PUT_item 2 mouse startup))) = fst (GET_item 3 startup)
  /\ fst (GET_item 3 (snd (DELETE_item 2 startup))) = fst (GET_item 3 startup).
Proof.
  assert (H : 3 <> 2) by discriminate.
  split; [exact H|].
  exact (other_ids_untouched 2 3 mouse startup H).
Defined.

(** ** Repeated requests *)

Lemma present_map_replace (item_id other : Z) (row : ItemModel) (db : Database) :
  ItemModel.id row = item_id ->
  present other (map (fun r => if ItemModel.id r =? item_id then row else r) db)
  = present other db.
Proof.
  intros Hid. unfold present. induction db as [|r rest IH]; simpl; [reflexivity|].
  rewrite IH. f_equal.
  destruct (ItemModel.id r =? item_id) eqn:E; [|reflexivity].
  apply Z.eqb_eq in E. rewrite Hid, E. reflexivity.
Qed.

Lemma map_replace_twice (item_id : Z) (a b : ItemModel) (db : Database) :
  ItemModel.id a = item_id ->
  map (fun r => if ItemModel.id r =? item_id then b else r)
    (map (fun r => if ItemModel.id r =? item_id then a else r) db)
  = map (fun r => if ItemModel.id r =? item_id then b else r) db.
Proof.
  intros Hid. rewrite map_map. apply map_ext. intros r.
  destruct (ItemModel.id r =? item_id) eqn:E; [|rewrite E; reflexivity].
  apply Z.eqb_eq in Hid. rewrite Hid. reflexivity.
Qed.

(** X8. A put is idempotent and the last put wins: sending the same
    [PUT /items/{id}] a second time gives the same response and the same
    table as sending it once, and after two puts on one id the table is the
    one the second put alone would have left.  A delete is not repeatable:
    the second [DELETE /items/{id}] changes nothing and is answered 404, or
    500 like the first when the id is no signed 64-bit integer. *)
Theorem repeated_put_and_delete (item_id : Z) (first second : ItemCreate)
    (db : Database) :
  PUT_item item_id second (snd (PUT_item item_id second db))
  = PUT_item item_id second db
  /\ snd (PUT_item item_id second (snd (PUT_item item_id first db)))
     = snd (PUT_item item_id second db)
  /\ DELETE_item item_id (snd (DELETE_item item_id db))
     = (if int64 item_id
        then Response.mk 404
               (detail_content (HTTPException.detail (not_found item_id)))
        else internal_server_error,
        snd (DELETE_item item_id db)).
Proof.
  assert (Hlast : forall a b,
            snd (PUT_item item_id b (snd (PUT_item item_id a db)))
            = snd (PUT_item item_id b db)).
  { intros a b. rewrite !PUT_item_table. destruct (int64 item_id); [|reflexivity].
    apply map_replace_twice. reflexivity. }
  split; [|split].
  - apply injective_projections; [|apply Hlast].
    rewrite !PUT_item_response, PUT_item_table.
    destruct (int64 item_id); [|reflexivity].
    rewrite present_map_replace by reflexivity. reflexivity.
  - apply Hlast.
  - apply injective_projections; cbn [fst snd].
    + rewrite DELETE_item_response, DELETE_item_table.
      destruct (int64 item_id); [|reflexivity].
      rewrite present_filter_out. reflexivity.
    + rewrite !DELETE_item_table. destruct (int64 item_id); [|reflexivity].
      apply filter_absent, present_filter_out.
Qed.

(** ** Row counts *)

Lemma filter_removes_one (item_id : Z) (db : Database) :
  NoDup (rowids db) ->
  present item_id db = true ->
  S (List.length (filter (fun r => negb (ItemModel.id r =? item_id)) db))
  = List.length db.
Proof.
  induction db as [|r rest IH]; intros Hnd Hp; [discriminate|].
  cbn [rowids map] in Hnd. inversion Hnd as [|? ? Hnotin Hrest]; subst.
  cbn [filter]. destruct (ItemModel.id r =? item_id) eqn:E; cbn [negb List.length].
  - apply Z.eqb_eq in E. rewrite filter_absent; [reflexivity|].
    destruct (present item_id rest) eqn:Hrestp; [|reflexivity].
    exfalso. apply Hnotin. rewrite E. apply present_rowids. exact Hrestp.
  - f_equal. apply IH; [exact Hrest|].
    unfold present in *. cbn [existsb] in Hp. rewrite E in Hp. exact Hp.
Qed.

(** X9. Each successful write moves the number of rows by what it should:
    on a table in rowid order that holds the id, a delete removes exactly
    one row and a put keeps the number of rows and their ids, and a create
    adds exactly one row. *)
Theorem writes_and_row_counts (item_id : Z) (item : ItemCreate) (db : Database) :
  rowid_order db ->
  rowids_fit db = true ->
  present item_id db = true ->
  S (List.length (snd (DELETE_item item_id db))) = List.length db
  /\ List.length (snd (PUT_item item_id item db)) = List.length db
  /\ rowids (snd (PUT_item item_id item db)) = rowids db
  /\ List.length (snd (POST_items item db)) = S (List.length db).
Proof.
  intros Ho Hfit Hp. split; [|split; [|split]].
  - rewrite DELETE_item_table, (present_int64 _ _ Hfit Hp).
    apply filter_removes_one; [apply StronglySorted_lt_NoDup; exact Ho|exact Hp].
  - rewrite <- (length_map ItemModel.id), <- (length_map ItemModel.id db).
    fold (rowids (snd (PUT_item item_id item db))). fold (rowids db).
    rewrite rowids_PUT_item. reflexivity.
  - apply rowids_PUT_item.
  - rewrite POST_items_table, length_app. cbn [List.length]. lia.
Qed.

Lemma writes_and_row_counts_witness :
  rowid_order startup
  /\ rowids_fit startup = true
  /\ present 2 startup = true
  /\ S (List.length (snd (DELETE_item 2 startup))) = List.length startup
  /\ List.length (snd (PUT_item 2 keyboard startup)) = List.length startup
  /\ rowids (snd (PUT_item 2 keyboard startup)) = rowids startup
  /\ List.length (snd (POST_items keyboard startup)) = S (List.length startup).
Proof.
  split; [exact rowid_order_startup|]. split; [reflexivity|]. split; [reflexivity|].
  exact (writes_and_row_counts 2 keyboard startup rowid_order_startup
           eq_refl eq_refl).
Defined.

(** ** Which deletes free an id *)

(** X10. Only the delete of the largest id frees an id: when the table
    holds a row with a larger id than the deleted one, the id the next
    create assigns is the same after the delete as before it, and above the
    deleted id, so the deleted id is not handed out again. *)
Theorem delete_below_largest_keeps_next_id (item_id : Z) (item : ItemCreate)
    (db : Database) :
  Exists (fun row => item_id < ItemModel.id row) db ->
  let db' := snd (DELETE_item item_id db) in
  next_rowid db' = next_rowid db
  /\ exists row,
       create_item item db' = (Returns row, db' ++ [row])
       /\ ItemModel.id row = next_rowid db
       /\ item_id < ItemModel.id row.
Proof.
  intros Hlarger db'.
  assert (Hnext : next_rowid db' = next_rowid db).
  { subst db'. rewrite DELETE_item_table. destruct (int64 item_id); [|reflexivity].
    apply next_rowid_filter. exact Hlarger. }
  split; [exact Hnext|].
  eexists. split; [apply create_item_returns|]. cbn [ItemModel.id].
  split; [exact Hnext|]. rewrite Hnext.
  pose proof (next_rowid_above db) as Habove.
  rewrite Exists_exists in Hlarger. destruct Hlarger as (x & Hx & Hxlt).
  rewrite Forall_forall in Habove. specialize (Habove x Hx). lia.
Qed.

Lemma delete_below_largest_keeps_next_id_witness :
  Exists (fun row => 2 < ItemModel.id row) startup
  /\ next_rowid (snd (DELETE_item 2 startup)) = next_rowid startup.
Proof.
  assert (H : Exists (fun row => 2 < ItemModel.id row) startup).
  { right. right. left. reflexivity. }
  split; [exact H|].
  exact (proj1 (delete_below_largest_keeps_next_id 2 mouse startup H)).
Defined.

(** ** Seeding and runs of creates *)

(** X11. [seed_data] does not look at the table it seeds: on any table it
    appends the three sample rows under the next three ids and keeps every
    row that was there, so seeding a seeded table doubles the samples. *)
Theorem seed_data_appends (db : Database) :
  let n := next_rowid db in
  seed_data db
  = db ++ [ ItemModel.mk n "Laptop"
              (Some "A powerful laptop for development") 1299.99;
            ItemModel.mk (n + 1) "Smartphone"
              (Some "Latest smartphone model") 899.99;
            ItemModel.mk (n + 2) "Headphones"
              (Some "Noise-cancelling headphones") 249.99 ]
  /\ List.length (seed_data (seed_data db)) = (List.length db + 6)%nat
  /\ next_rowid (seed_data db) = n + 3.
Proof.
  intros n.
  assert (Hseed : forall d,
            seed_data d
            = d ++ [ ItemModel.mk (next_rowid d) "Laptop"
                       (Some "A powerful laptop for development") 1299.99;
                     ItemModel.mk (next_rowid d + 1) "Smartphone"
                       (Some "Latest smartphone model") 899.99;
                     ItemModel.mk (next_rowid d + 2) "Headphones"
                       (Some "Noise-cancelling headphones") 249.99 ]).
  { intros d. unfold seed_data, sample_items. cbn [fold_left].
    unfold Session.add. cbn [snd ItemBase.name ItemBase.description ItemBase.price].
    change (REAL 1299.99) with 1299.99%float.
    change (REAL 899.99) with 899.99%float.
    change (REAL 249.99) with 249.99%float.
    rewrite (next_rowid_app d) by reflexivity. cbn [ItemModel.id].
    rewrite (next_rowid_app (d ++ _)).
    2: { cbn [ItemModel.id]. rewrite (next_rowid_app d) by reflexivity.
         reflexivity. }
    cbn [ItemModel.id]. rewrite <- !app_assoc. cbn [app].
    replace (next_rowid d + 1 + 1) with (next_rowid d + 2) by lia.
    reflexivity. }
  split; [apply Hseed|]. split.
  - rewrite (Hseed (seed_data db)), (Hseed db), !length_app. cbn [List.length]. lia.
  - rewrite (Hseed db).
    change (db ++ [?a; ?b; ?c]) with (db ++ [a] ++ [b] ++ [c]).
    rewrite !app_assoc.
    rewrite (next_rowid_app ((db ++ _) ++ _)).
    + cbn [ItemModel.id]. fold n. lia.
    + cbn [ItemModel.id]. rewrite (next_rowid_app (db ++ _)).
      * cbn [ItemModel.id]. fold n. lia.
      * cbn [ItemModel.id]. rewrite (next_rowid_app db) by reflexivity.
        reflexivity.
Qed.

(** X12. Creates with nothing between them hand out consecutive ids: a run
    of k creates from a table whose next id is n assigns n, n+1, ..,
    n+k-1, in that order. *)
Theorem creates_assign_consecutive_ids (items : list ItemCreate) (db : Database) :
  assigned_ids (map Create items) db
  = map (fun k => next_rowid db + Z.of_nat k) (seq 0 (List.length items)).
Proof.
  revert db. induction items as [|item items IH]; intros db; [reflexivity|].
  unfold assigned_ids in *. cbn [map List.length seq]. rewrite creates_cons_create.
  cbn [map snd]. f_equal; [rewrite Z.add_0_r; reflexivity|].
  rewrite IH. rewrite <- seq_shift, map_map, next_rowid_create.
  apply map_ext. intros k. lia.
Qed.

(** ** Bodies that validate *)

(** X13. A body with a string for the name, a number with a fraction or an
    exponent, other than NaN, for the price and a description that is
    absent, null or a string validates whatever else it holds, and
    [POST /items] answers 201 and stores it field by field: the row has the
    next id, that name, the price as the REAL column keeps it (the price
    itself unless it is a zero, kept as 0.0), and the description given,
    null when it was absent or null. *)
Theorem well_typed_body_is_stored (str_as_float : string -> option float)
    (bool_as_float : bool -> option float)
    (members : list (string * json)) (n : string) (p : float) (db : Database) :
  get "name" members = Some (JString n) ->
  get "price" members = Some (JNumber p) ->
  PrimFloat.is_nan p = false ->
  get "description" members = None
  \/ get "description" members = Some JNull
  \/ (exists s, get "description" members = Some (JString s)) ->
  let d :=
    match get "description" members with
    | Some (JString s) => Some s
    | _ => None
    end in
  let stored := if PrimFloat.eqb p 0 then 0%float else p in
  validate str_as_float bool_as_float (JObject members) = inr (ItemBase.mk n d p)
  /\ app str_as_float bool_as_float (Post_items (JObject members)) db
     = (Response.mk 201 (item_content (ItemResponse.mk (next_rowid db) n d stored)),
        db ++ [ItemModel.mk (next_rowid db) n d stored]).
Proof.
  intros Hn Hp Hnan Hd d stored.
  assert (Hv : validate str_as_float bool_as_float (JObject members)
               = inr (ItemBase.mk n d p)).
  { unfold validate, validate_name, validate_price, validate_description.
    rewrite Hn, Hp. subst d.
    destruct Hd as [Hd|[Hd|[s Hd]]]; rewrite Hd; reflexivity. }
  assert (Hstored : REAL p = stored).
  { unfold REAL, stored. rewrite Hnan. reflexivity. }
  split; [exact Hv|].
  cbn [app]. rewrite Hv. apply injective_projections.
  - rewrite POST_items_response.
    cbn [ItemBase.name ItemBase.description ItemBase.price fst].
    rewrite Hnan, Hstored. reflexivity.
  - rewrite POST_items_table.
    cbn [ItemBase.name ItemBase.description ItemBase.price snd].
    rewrite Hstored. reflexivity.
Qed.

Lemma well_typed_body_is_stored_witness :
  let members :=
    [("price", JNumber 29.99); ("tags", JArray [JString "usb"]);
     ("name", JString "Mouse"); ("description", JNull)] in
  get "name" members = Some (JString "Mouse")
  /\ get "price" members = Some (JNumber 29.99)
  /\ PrimFloat.is_nan 29.99 = false
  /\ get "description" members = Some JNull
  /\ app plain_decimal (fun _ => None) (Post_items (JObject members)) startup
     = (Response.mk 201 (item_content (ItemResponse.mk 4 "Mouse" None 29.99)),
        startup ++ [ItemModel.mk 4 "Mouse" None 29.99]).
Proof.
  intros members.
  split; [reflexivity|]. split; [reflexivity|]. split; [reflexivity|].
  split; [reflexivity|].
  exact (proj2 (well_typed_body_is_stored plain_decimal (fun _ => None) members
                  "Mouse" 29.99 startup eq_refl eq_refl eq_refl
                  (or_intror (or_introl eq_refl)))).
Defined.

(** ** The not-found message *)

Lemma str_inj (n m : Z) : str n = str m -> n = m.
Proof.
  unfold str. intros H.
  assert (Hnil : forall z, Z.to_int z <> Decimal.Pos Decimal.Nil
                           /\ Z.to_int z <> Decimal.Neg Decimal.Nil).
  { intros [|q|q]; simpl; split; intros E; try discriminate;
      injection E as E; exact (Unsigned.to_uint_nonnil q E). }
  apply (f_equal NilZero.int_of_string) in H.
  rewrite !NilZero.isi in H by apply Hnil.
  injection H as H. apply DecimalZ.to_int_inj. exact H.
Qed.

Lemma length_append (s t : string) :
  String.length (s ++ t)%string = (String.length s + String.length t)%nat.
Proof.
  induction s as [|c s IH]; simpl; [reflexivity|]. rewrite IH. reflexivity.
Qed.

Lemma append_cancel_r (s1 s2 t : string) :
  (s1 ++ t)%string = (s2 ++ t)%string -> s1 = s2.
Proof.
  revert s2. induction s1 as [|c s1 IH]; intros [|c2 s2] H; simpl in H.
  - reflexivity.
  - apply (f_equal String.length) in H. simpl in H. rewrite length_append in H. lia.
  - apply (f_equal String.length) in H. simpl in H. rewrite length_append in H. lia.
  - injection H as -> H. f_equal. apply IH. exact H.
Qed.

(** X14. The not-found message names its id: for two different ids, both
    signed 64-bit integers and both absent, the 404 responses carry
    different [detail] texts, so the text tells which id was asked for. *)
Theorem not_found_names_the_id (item_id other : Z) (db : Database) :
  item_id <> other ->
  int64 item_id = true ->
  int64 other = true ->
  present item_id db = false ->
  present other db = false ->
  fst (GET_item item_id db) <> fst (GET_item other db)
  /\ HTTPException.detail (not_found item_id)
     <> HTTPException.detail (not_found other).
Proof.
  intros Hne Hi1 Hi2 Hp1 Hp2.
  assert (Hdetail : HTTPException.detail (not_found item_id)
                    <> HTTPException.detail (not_found other)).
  { unfold not_found. cbn [HTTPException.detail]. intros H.
    apply Hne, str_inj.
    apply (append_cancel_r _ _ " not found").
    simpl in H. injection H as H. exact H. }
  split; [|exact Hdetail].
  unfold GET_item, endpoint.
  rewrite (get_item_absent _ _ Hi1 Hp1), (get_item_absent _ _ Hi2 Hp2).
  intros H. apply Hdetail.
  exact (f_equal (fun response =>
                    match Response.body response with
                    | detail_content text => text
                    | _ => EmptyString
                    end) H).
Qed.

Lemma not_found_names_the_id_witness :
  7 <> 70
  /\ int64 7 = true
  /\ int64 70 = true
  /\ present 7 startup = false
  /\ present 70 startup = false
  /\ fst (GET_item 7 startup) <> fst (GET_item 70 startup).
Proof.
  assert (H : 7 <> 70) by discriminate.
  split; [exact H|]. split; [reflexivity|]. split; [reflexivity|].
  split; [reflexivity|]. split; [reflexivity|].
  exact (proj1 (not_found_names_the_id 7 70 startup H eq_refl eq_refl
                  eq_refl eq_refl)).
Defined.

(** ** Counting rows over a run *)

Lemma count_status_cons (code : Z) (response : Response)
    (responses : list Response) :
  count_status code (response :: responses)
  = (count_status code [response] + count_status code responses)%nat.
Proof.
  unfold count_status. cbn [filter].
  destruct (Response.status_code response =? code); reflexivity.
Qed.

Lemma app_row_count (str_as_float : string -> option float)
    (bool_as_float : bool -> option float) (r : request) (db : Database) :
  NoDup (rowids db) ->
  let response := fst (app str_as_float bool_as_float r db) in
  let db' := snd (app str_as_float bool_as_float r db) in
  count_status 500 [response] = 0%nat ->
  (List.length db' + count_status 204 [response]
   = List.length db + count_status 201 [response])%nat.
Proof.
  intros Hnd.
  destruct r as [| |item_id|body|item_id body|item_id]; cbn [app].
  - reflexivity.
  - rewrite GET_items_response. unfold GET_items. rewrite endpoint_table.
    destruct (forallb priced db); [reflexivity|discriminate].
  - rewrite GET_item_table.
    pose proof (GET_item_status item_id db) as H. cbv zeta in H.
    unfold count_status. cbn [filter].
    destruct (int64 item_id); [destruct (present item_id db)|].
    + destruct H as [-> | ->]; [reflexivity|discriminate].
    + rewrite H. reflexivity.
    + rewrite H. discriminate.
  - destruct (validate str_as_float bool_as_float body) as [errors|item].
    + reflexivity.
    + rewrite POST_items_response, POST_items_table, length_app.
      destruct (PrimFloat.is_nan (ItemBase.price item)); [discriminate|].
      cbn. lia.
  - destruct (validate str_as_float bool_as_float body) as [errors|item].
    + reflexivity.
    + intros H. rewrite <- (length_map ItemModel.id).
      fold (rowids (snd (PUT_item item_id item db))).
      rewrite rowids_PUT_item. unfold rowids. rewrite length_map.
      revert H. rewrite PUT_item_response.
      destruct (int64 item_id); [destruct (present item_id db)|];
        [destruct (PrimFloat.is_nan (ItemBase.price item))| |];
        try discriminate; reflexivity.
  - rewrite DELETE_item_response, DELETE_item_table.
    destruct (int64 item_id); [destruct (present item_id db) eqn:Hp|].
    + intros _. cbn. pose proof (filter_removes_one item_id db Hnd Hp). lia.
    + rewrite (filter_absent _ _ Hp). reflexivity.
    + discriminate.
Qed.

Lemma serve_row_count (str_as_float : string -> option float)
    (bool_as_float : bool -> option float) (requests : list request)
    (db : Database) :
  rowid_order db /\ Forall (fun i => 1 <= i) (rowids db) ->
  let responses := fst (serve str_as_float bool_as_float requests db) in
  let db' := snd (serve str_as_float bool_as_float requests db) in
  count_status 500 responses = 0%nat ->
  (List.length db' + count_status 204 responses
   = List.length db + count_status 201 responses)%nat.
Proof.
  revert db. induction requests as [|r rest IH]; intros db H; [cbn; lia|].
  cbn [serve].
  pose proof (app_keeps_order_and_sign str_as_float bool_as_float r db H) as H'.
  pose proof (app_row_count str_as_float bool_as_float r db
                (StronglySorted_lt_NoDup _ (proj1 H))) as Hstep.
  cbv zeta in Hstep.
  destruct (app str_as_float bool_as_float r db) as [response db1].
  cbn [fst snd] in Hstep, H'. specialize (IH db1 H'). cbv zeta in IH.
  destruct (serve str_as_float bool_as_float rest db1) as [responses db2].
  cbn [fst snd] in *.
  rewrite (count_status_cons 500), (count_status_cons 204),
    (count_status_cons 201).
  intros Hnone. assert (Hr : count_status 500 [response] = 0%nat) by lia.
  assert (Hrs : count_status 500 responses = 0%nat) by lia.
  specialize (Hstep Hr). specialize (IH Hrs). lia.
Qed.

(** X15. The rows are accounted for by the responses: after any requests
    since start-up none of which was answered 500, the table holds the three
    seeded rows, plus one for each response with status 201, minus one for
    each response with status 204. *)
Theorem rows_match_responses (str_as_float : string -> option float)
    (bool_as_float : bool -> option float) (requests : list request) :
  let responses := fst (serve str_as_float bool_as_float requests startup) in
  let db := snd (serve str_as_float bool_as_float requests startup) in
  count_status 500 responses = 0%nat ->
  (List.length db + count_status 204 responses
   = 3 + count_status 201 responses)%nat.
Proof.
  exact (serve_row_count str_as_float bool_as_float requests startup
           startup_order_and_sign).
Qed.

Lemma rows_match_responses_witness :
  let requests :=
    [Post_items (JObject [("name", JString "Mouse"); ("price", JNumber 29.99)]);
     Delete_item 2; Delete_item 2; Get_items] in
  let responses := fst (serve plain_decimal (fun _ => None) requests startup) in
  let db := snd (serve plain_decimal (fun _ => None) requests startup) in
  count_status 500 responses = 0%nat
  /\ map Response.status_code responses = [201; 204; 404; 200]
  /\ (List.length db + count_status 204 responses
      = 3 + count_status 201 responses)%nat.
Proof.
  intros requests responses db.
  split; [reflexivity|]. split; [reflexivity|].
  exact (rows_match_responses plain_decimal (fun _ => None) requests eq_refl).
Defined.

(** ** The optional description *)

(** X16. The description is optional but typed: a body whose description
    is present and is neither null nor a string is answered 422 by
    [POST /items] and [PUT /items/{id}], whatever its name and price, and
    the table is not changed. *)
Theorem ill_typed_description_answers_422
    (str_as_float : string -> option float) (bool_as_float : bool -> option float)
    (body v : json) (item_id : Z) (db : Database) :
  member "description" body = Some v ->
  v <> JNull ->
  is_string v = false ->
  exists errors,
    errors <> []
    /\ app str_as_float bool_as_float (Post_items body) db
       = (Response.mk 422 (errors_content errors), db)
    /\ app str_as_float bool_as_float (Put_item item_id body) db
       = (Response.mk 422 (errors_content errors), db).
Proof.
  intros Hm Hnull Hstr.
  destruct (validate str_as_float bool_as_float body) as [errors|item] eqn:Hv.
  - exists errors. split; [exact (validate_errors_nonempty _ _ _ _ Hv)|].
    cbn [app]. rewrite Hv. split; reflexivity.
  - exfalso.
    destruct (validate_inr _ _ _ _ Hv) as (members & -> & _ & Hd & _).
    unfold validate_description in Hd. simpl in Hm. rewrite Hm in Hd.
    destruct v; try discriminate. apply Hnull. reflexivity.
Qed.

Lemma ill_typed_description_answers_422_witness :
  let body :=
    JObject [("name", JString "Mouse"); ("price", JNumber 29.99);
             ("description", JNumber 5)] in
  member "description" body = Some (JNumber 5)
  /\ JNumber 5 <> JNull
  /\ is_string (JNumber 5) = false
  /\ exists errors,
       errors <> []
       /\ app plain_decimal (fun _ => None) (Post_items body) startup
          = (Response.mk 422 (errors_content errors), startup)
       /\ app plain_decimal (fun _ => None) (Put_item 1 body) startup
          = (Response.mk 422 (errors_content errors), startup).
Proof.
  intros body.
  assert (H : JNumber 5 <> JNull) by discriminate.
  split; [reflexivity|]. split; [exact H|]. split; [reflexivity|].
  exact (ill_typed_description_answers_422 plain_decimal (fun _ => None) body
           (JNumber 5) 1 startup eq_refl H eq_refl).
Defined.

(** ** Rows without a price, ids out of range *)

(** X19. A NaN price leaves a row that breaks the list: on a table whose
    list was answered 200, a [POST /items] with the price NaN is answered
    500 but inserts the row under the next id; from then on [GET /items] and
    the get of that id are answered 500, until the row is deleted, which
    gives the table back as it was. *)
Theorem null_price_row_breaks_the_list (item : ItemCreate) (db : Database) :
  forallb priced db = true ->
  PrimFloat.is_nan (ItemBase.price item) = true ->
  int64 (next_rowid db) = true ->
  let db' := snd (POST_items item db) in
  fst (POST_items item db) = internal_server_error
  /\ rowids db' = rowids db ++ [next_rowid db]
  /\ fst (GET_items db') = internal_server_error
  /\ fst (GET_item (next_rowid db) db') = internal_server_error
  /\ DELETE_item (next_rowid db) db' = (Response.mk 204 no_content, db)
  /\ fst (GET_items db)
     = Response.mk 200 (items_content (map ItemResponse.from_orm db)).
Proof.
  intros Hpriced Hnan Hfit db'. subst db'.
  rewrite POST_items_response, POST_items_table, Hnan.
  set (row := ItemModel.mk (next_rowid db) (ItemBase.name item)
                (ItemBase.description item) (REAL (ItemBase.price item))).
  assert (Hrow : priced row = false).
  { unfold priced, row. cbn [ItemModel.price]. rewrite is_nan_REAL, Hnan.
    reflexivity. }
  assert (Hfind : find (fun r => ItemModel.id r =? ItemModel.id row) (db ++ [row])
                  = Some row).
  { apply find_app_absent; [apply next_rowid_absent|reflexivity]. }
  split; [reflexivity|]. split; [|split; [|split; [|split]]].
  - unfold rowids. rewrite map_app. reflexivity.
  - rewrite GET_items_response, forallb_app. cbn [forallb].
    rewrite Hrow, !andb_false_r. reflexivity.
  - pose proof (GET_item_row row (db ++ [row]) Hfit Hfind) as Hg.
    change (ItemModel.id row) with (next_rowid db) in Hg. rewrite Hg, Hrow.
    reflexivity.
  - apply injective_projections; cbn [fst snd].
    + rewrite DELETE_item_response, Hfit.
      unfold present. rewrite existsb_app. cbn [existsb].
      change (ItemModel.id row) with (next_rowid db). rewrite Z.eqb_refl.
      rewrite orb_true_r. reflexivity.
    + rewrite DELETE_item_table, Hfit, filter_app.
      rewrite (filter_absent _ _ (next_rowid_absent db)). cbn [filter].
      change (ItemModel.id row) with (next_rowid db). rewrite Z.eqb_refl.
      cbn [negb]. apply app_nil_r.
  - rewrite GET_items_response, Hpriced. reflexivity.
Qed.

Lemma null_price_row_breaks_the_list_witness :
  let item := ItemBase.mk "Mouse" None nan in
  forallb priced startup = true
  /\ PrimFloat.is_nan nan = true
  /\ int64 (next_rowid startup) = true
  /\ fst (POST_items item startup) = internal_server_error
  /\ fst (GET_items (snd (POST_items item startup))) = internal_server_error
  /\ DELETE_item 4 (snd (POST_items item startup))
     = (Response.mk 204 no_content, startup).
Proof.
  intros item.
  split; [reflexivity|]. split; [reflexivity|]. split; [reflexivity|].
  destruct (null_price_row_breaks_the_list item startup eq_refl eq_refl eq_refl)
    as (Hpost & _ & Hlist & _ & Hdelete & _).
  split; [exact Hpost|]. split; [exact Hlist|exact Hdelete].
Defined.

(** X20. An id that is no signed 64-bit integer is answered 500 by every
    route that names it, on every table and for a put whatever its validated
    body; the table is left as it was. *)
Theorem id_out_of_range_answers_500 (item_id : Z) (item : ItemCreate)
    (db : Database) :
  int64 item_id = false ->
  GET_item item_id db = (internal_server_error, db)
  /\ PUT_item item_id item db = (internal_server_error, db)
  /\ DELETE_item item_id db = (internal_server_error, db).
Proof.
  intros Hi. unfold GET_item, PUT_item, DELETE_item, endpoint.
  rewrite (get_item_overflow _ _ Hi), (update_item_overflow _ item _ Hi),
    (delete_item_overflow _ _ Hi).
  repeat split.
Qed.

Lemma id_out_of_range_answers_500_witness :
  int64 (- 2 ^ 63 - 1) = false
  /\ GET_item (- 2 ^ 63 - 1) startup = (internal_server_error, startup)
  /\ PUT_item (- 2 ^ 63 - 1) keyboard startup = (internal_server_error, startup)
  /\ DELETE_item (- 2 ^ 63 - 1) startup = (internal_server_error, startup).
Proof.
  split; [reflexivity|].
  exact (id_out_of_range_answers_500 (- 2 ^ 63 - 1) keyboard startup eq_refl).
Defined.
